(** * NSS Lens backend (src/NSSSS/app.py): registration and photo submission

    A shallow embedding of the Flask application: the two POST handlers
    [register] and [submit_photo], the helper [allowed_file], and the
    pieces of the Python and Werkzeug libraries they call (str methods,
    [re.match], [secure_filename], [os.path.join]).

    Conventions.
    - A Python [str] is a [string]; its characters are the code points
      0..255.  [str.lower] and the NFKD folding of [secure_filename] are
      written out for that range.
    - The operating system is POSIX ([os.sep = "/"], no [os.path.altsep],
      [os.name <> "nt"]).
    - The database and the upload directory are explicit state; what the
      storage layer does on a given request (commit accepted or raising,
      file save succeeding or raising) is read from an [Env].
    - One request runs at a time, and the two calls the handlers guard
      with [try] are the ones that can raise: the lookups of [register],
      [db.session.rollback()] and [os.remove] are taken to succeed. *)

From stdpp Require Import base option list gmap strings.
From Stdlib Require Import Ascii String NArith Strings.Byte.

Local Open Scope string_scope.
Local Open Scope N_scope.

(** ** Python [str] *)

Module Str.

Definition code (c : ascii) : N := N_of_ascii c.

Definition in_range (lo hi : ascii) (c : ascii) : bool :=
  (code lo <=? code c) && (code c <=? code hi).

Definition LF : ascii := ascii_of_N 10.

Fixpoint map (f : ascii → ascii) (s : string) : string :=
  match s with
  | EmptyString => EmptyString
  | String c s' => String (f c) (map f s')
  end.

Fixpoint flat_map (f : ascii → string) (s : string) : string :=
  match s with
  | EmptyString => EmptyString
  | String c s' => f c ++ flat_map f s'
  end.

Fixpoint filter (p : ascii → bool) (s : string) : string :=
  match s with
  | EmptyString => EmptyString
  | String c s' => if p c then String c (filter p s') else filter p s'
  end.

Fixpoint drop_while (p : ascii → bool) (s : string) : string :=
  match s with
  | EmptyString => EmptyString
  | String c s' => if p c then drop_while p s' else s
  end.

(** [c in s] for a one-character [c]. *)
Fixpoint contains (c : ascii) (s : string) : bool :=
  match s with
  | EmptyString => false
  | String c' s' => Ascii.eqb c' c || contains c s'
  end.

(** [s.startswith(c)] and [s.endswith(c)] for a one-character [c]. *)
Definition startswith (c : ascii) (s : string) : bool :=
  match s with
  | String c' _ => Ascii.eqb c' c
  | EmptyString => false
  end.

Fixpoint endswith (c : ascii) (s : string) : bool :=
  match s with
  | EmptyString => false
  | String c' EmptyString => Ascii.eqb c' c
  | String _ s' => endswith c s'
  end.

(** [str.lower] on the code points 0..255: A-Z, and the Latin-1 capitals
    U+00C0..U+00DE except the multiplication sign U+00D7, move up by 32. *)
Definition lower_char (c : ascii) : ascii :=
  let n := code c in
  if ((65 <=? n) && (n <=? 90))
     || ((192 <=? n) && (n <=? 222) && negb (n =? 215))
  then ascii_of_N (n + 32) else c.

Definition lower (s : string) : string := map lower_char s.

(** The split of [s] at its last [sep], when there is one. *)
Fixpoint rpartition (sep : ascii) (s : string) : option (string * string) :=
  match s with
  | EmptyString => None
  | String c s' =>
      match rpartition sep s' with
      | Some (l, r) => Some (String c l, r)
      | None => if Ascii.eqb c sep then Some (EmptyString, s') else None
      end
  end.

(** [s.rsplit(sep, 1)] *)
Definition rsplit1 (sep : ascii) (s : string) : list string :=
  match rpartition sep s with
  | Some (l, r) => [l; r]
  | None => [s]
  end.

(** [s.replace(old, new)] for one-character [old] and [new]. *)
Definition replace (old new : ascii) (s : string) : string :=
  map (λ c, if Ascii.eqb c old then new else c) s.

(** [str.isspace] on the code points 0..255: TAB, LF, VT, FF, CR, FS, GS,
    RS, US, space, NEL (U+0085) and the no-break space (U+00A0). *)
Definition isspace (c : ascii) : bool :=
  let n := code c in
  ((9 <=? n) && (n <=? 13)) || ((28 <=? n) && (n <=? 32))
  || (n =? 133) || (n =? 160).

(** [s.split()]: the maximal runs of non-space characters.  [cur] is the
    run being read, in reverse. *)
Fixpoint split_go (cur : string) (s : string) : list string :=
  match s with
  | EmptyString =>
      match cur with EmptyString => [] | _ => [String.rev cur] end
  | String c s' =>
      if isspace c then
        match cur with
        | EmptyString => split_go EmptyString s'
        | _ => String.rev cur :: split_go EmptyString s'
        end
      else split_go (String c cur) s'
  end.

Definition split (s : string) : list string := split_go EmptyString s.

(** [sep.join(l)] *)
Definition join (sep : string) (l : list string) : string :=
  String.concat sep l.

(** [s.strip(chars)] *)
Definition strip (chars : string) (s : string) : string :=
  let p c := contains c chars in
  String.rev (drop_while p (String.rev (drop_while p s))).

End Str.

(** ** [re.match] for the patterns of this program

    A pattern is a sequence of items: [^], [$], and a character range
    repeated a fixed number of times.  [re.match] tries the pattern at
    position 0 only.  Without [re.MULTILINE], [^] matches at position 0,
    and [$] matches at the end of the string and also just before a
    newline that is the last character of the string. *)

Module Re.

Inductive item : Type :=
| Caret
| Dollar
| Range (lo hi : ascii) (count : nat).

(** Consume exactly [n] characters of the range [lo-hi]. *)
Fixpoint eat (lo hi : ascii) (n : nat) (s : string) : option string :=
  match n with
  | O => Some s
  | S n' =>
      match s with
      | String c s' => if Str.in_range lo hi c then eat lo hi n' s' else None
      | EmptyString => None
      end
  end.

Definition at_end (s : string) : bool :=
  match s with
  | EmptyString => true
  | String c EmptyString => Ascii.eqb c Str.LF
  | _ => false
  end.

(** [pos0] tells whether the current position is the start of the
    string. *)
Fixpoint match_here (p : list item) (pos0 : bool) (s : string) : bool :=
  match p with
  | [] => true
  | Caret :: p' => pos0 && match_here p' pos0 s
  | Dollar :: p' => at_end s && match_here p' pos0 s
  | Range lo hi n :: p' =>
      match eat lo hi n s with
      | Some rest => match_here p' (pos0 && Nat.eqb n 0) rest
      | None => false
      end
  end.

(** Truth value of [re.match(p, s)]. *)
Definition match_ (p : list item) (s : string) : bool := match_here p true s.

End Re.

(** [r'^[0-9]{2}[A-Z]{3}[0-9]{4}$'] *)
Definition VIT_ID_PATTERN : list Re.item :=
  [Re.Caret; Re.Range "0" "9" 2; Re.Range "A" "Z" 3; Re.Range "0" "9" 4;
   Re.Dollar].

(** ** Configuration and [allowed_file] *)

Definition UPLOAD_FOLDER : string := "uploads".

Definition ALLOWED_EXTENSIONS : gset string := {["png"; "jpg"; "jpeg"]}.

(** [allowed_file(filename)]; [None] stands for the [IndexError] that the
    subscript [[1]] raises on a one-element list. *)
Definition allowed_file (filename : string) : option bool :=
  if Str.contains "." filename then
    match Str.rsplit1 "." filename !! 1%nat with
    | Some ext => Some (bool_decide (Str.lower ext ∈ ALLOWED_EXTENSIONS))
    | None => None
    end
  else Some false.


(** ** [werkzeug.utils.secure_filename] and [os.path.join] *)

Module Werkzeug.

(** [unicodedata.normalize("NFKD", c).encode("ascii", "ignore")] for one
    code point below 256: ASCII is kept; a Latin-1 letter with a
    diacritic leaves its base letter; the spacing diacritics and the
    no-break space leave a space; superscripts, ordinals and fractions
    leave their digits or letter; everything else is dropped. *)
Definition nfkd_ascii (c : ascii) : string :=
  let n := Str.code c in
  if n <? 128 then String c ""
  else if (n =? 160) || (n =? 168) || (n =? 175) || (n =? 180) || (n =? 184)
    then " "
  else if n =? 170 then "a"
  else if n =? 178 then "2"
  else if n =? 179 then "3"
  else if n =? 185 then "1"
  else if n =? 186 then "o"
  else if n =? 188 then "14"
  else if n =? 189 then "12"
  else if n =? 190 then "34"
  else if (192 <=? n) && (n <=? 197) then "A"
  else if n =? 199 then "C"
  else if (200 <=? n) && (n <=? 203) then "E"
  else if (204 <=? n) && (n <=? 207) then "I"
  else if n =? 209 then "N"
  else if (210 <=? n) && (n <=? 214) then "O"
  else if (217 <=? n) && (n <=? 220) then "U"
  else if n =? 221 then "Y"
  else if (224 <=? n) && (n <=? 229) then "a"
  else if n =? 231 then "c"
  else if (232 <=? n) && (n <=? 235) then "e"
  else if (236 <=? n) && (n <=? 239) then "i"
  else if n =? 241 then "n"
  else if (242 <=? n) && (n <=? 246) then "o"
  else if (249 <=? n) && (n <=? 252) then "u"
  else if (n =? 253) || (n =? 255) then "y"
  else "".

(** The class [[A-Za-z0-9_.-]]; [_filename_ascii_strip_re] removes every
    character outside it. *)
Definition filename_char (c : ascii) : bool :=
  Str.in_range "A" "Z" c || Str.in_range "a" "z" c || Str.in_range "0" "9" c
  || Ascii.eqb c "_" || Ascii.eqb c "." || Ascii.eqb c "-".

Definition secure_filename (filename : string) : string :=
  let filename := Str.flat_map nfkd_ascii filename in
  let filename := Str.replace "/" " " filename in
  Str.strip "._" (Str.filter filename_char (Str.join "_" (Str.split filename))).

End Werkzeug.

Module Os.

(** [os.path.join(a, b)] of [posixpath]. *)
Definition path_join (a b : string) : string :=
  if Str.startswith "/" b then b
  else if String.eqb a "" || Str.endswith "/" a then a ++ b
  else a ++ "/" ++ b.

End Os.

(** ** Database models *)

Module User.
Record t : Type := mk {
  id : option N;            (* primary key, [None] until inserted *)
  full_name : string;
  vit_id : string;          (* unique *)
  email : string;           (* unique *)
  password : string
}.
End User.

Module PhotoSubmission.
Record t : Type := mk {
  id : option N;            (* primary key, [None] until inserted *)
  full_name : string;
  vit_id : string;
  photo_title : string;
  theme : string;
  description : option string;
  photo_filename : string;
  timestamp : option N      (* server default, [None] until inserted *)
}.
End PhotoSubmission.

(** ** Requests, responses, and the state the handlers act on *)

Record FileStorage : Type := {
  filename : string;
  stream : list byte
}.

(** [bool(photo_file)] is [bool(photo_file.filename)]. *)
Definition FileStorage_bool (f : FileStorage) : bool :=
  negb (String.eqb (filename f) "").

(** [request.form] and [request.files] are multi-dicts: [get] and the
    subscript return the first value stored under the key. *)
Fixpoint get {V : Type} (d : list (string * V)) (key : string) : option V :=
  match d with
  | [] => None
  | (k, v) :: d' => if String.eqb k key then Some v else get d' key
  end.

Record Request : Type := {
  form : list (string * string);
  files : list (string * FileStorage)
}.

(** [jsonify({'message': m}), code], or the 500 page Flask produces for an
    exception that leaves the view function. *)
Inductive Response : Type :=
| Json (message : string) (code : N)
| InternalServerError.

Definition status (r : Response) : N :=
  match r with
  | Json _ code => code
  | InternalServerError => 500
  end.

(** What [photo_file.save] does: it writes the whole stream, or it raises
    [msg]; a save that raises leaves the path as it was ([None]) or leaves
    a partly written file ([Some bytes]). *)
Inductive SaveOutcome : Type :=
| SaveOk
| SaveRaises (msg : string) (left_behind : option (list byte)).

(** What the storage layer does during one request, and the clock:
    [commit_error = Some e] when the database makes [db.session.commit()]
    raise [e] for a reason of its own (locked or unwritable file). *)
Record Env : Type := {
  save_outcome : SaveOutcome;
  commit_error : option string;
  now : N
}.

(** The two tables and the files on disk, by path. *)

Record World : Type := {
  users : list User.t;
  photos : list PhotoSubmission.t;
  disk : gmap string (list byte)
}.

(** [db.session]: the objects added and not yet flushed, and whether the
    transaction is usable ([active = false] after a failed commit, until
    [rollback]). *)
Inductive Obj : Type :=
| AUser (u : User.t)
| APhoto (p : PhotoSubmission.t).

Record Session : Type := {
  pending : list Obj;
  active : bool
}.

Definition new_session : Session := {| pending := []; active := true |}.

Record Result : Type := {
  response : Response;
  world : World;
  session : Session
}.

(** *** Tables *)

(** An INTEGER PRIMARY KEY column receives the largest key in use plus one. *)
Definition next_id (ids : list (option N)) : N :=
  1 + foldr (λ i m, N.max (default 0 i) m) 0 ids.

(** [User.query.filter_by(vit_id=v).first()] and
    [User.query.filter_by(email=e).first()] *)
Definition first_by_vit_id (v : string) (us : list User.t) : option User.t :=
  List.find (λ u, String.eqb (User.vit_id u) v) us.

Definition first_by_email (e : string) (us : list User.t) : option User.t :=
  List.find (λ u, String.eqb (User.email u) e) us.

(** INSERT of one object.  The [unique=True] columns of [User] make the
    insert of a row with a stored [vit_id] or [email] raise; when both are
    stored, SQLite names the email column. *)
Definition insert (env : Env) (o : Obj) (w : World) : string + World :=
  match o with
  | AUser u =>
      if bool_decide (User.email u ∈ User.email <$> users w) then
        inl "UNIQUE constraint failed: user.email"
      else if bool_decide (User.vit_id u ∈ User.vit_id <$> users w) then
        inl "UNIQUE constraint failed: user.vit_id"
      else
        let row := User.mk (Some (next_id (User.id <$> users w)))
                     (User.full_name u) (User.vit_id u) (User.email u)
                     (User.password u) in
        inr {| users := users w ++ [row]; photos := photos w; disk := disk w |}
  | APhoto p =>
      let row := PhotoSubmission.mk
                   (Some (next_id (PhotoSubmission.id <$> photos w)))
                   (PhotoSubmission.full_name p) (PhotoSubmission.vit_id p)
                   (PhotoSubmission.photo_title p) (PhotoSubmission.theme p)
                   (PhotoSubmission.description p)
                   (PhotoSubmission.photo_filename p) (Some (now env)) in
      inr {| users := users w; photos := photos w ++ [row]; disk := disk w |}
  end.

Fixpoint flush (env : Env) (os : list Obj) (w : World) : string + World :=
  match os with
  | [] => inr w
  | o :: os' =>
      match insert env o w with
      | inl e => inl e
      | inr w' => flush env os' w'
      end
  end.

(** *** Session operations *)

(** [db.session.add(o)] *)
Definition session_add (o : Obj) (s : Session) : Session :=
  {| pending := pending s ++ [o]; active := active s |}.

(** [db.session.commit()]: [inl e] when it raises [e].  A commit that
    raises leaves the tables as they were and the session inactive. *)
Definition session_commit (env : Env) (s : Session) (w : World)
  : (string + unit) * Session * World :=
  match flush env (pending s) w with
  | inl e => (inl e, {| pending := pending s; active := false |}, w)
  | inr w' =>
      match commit_error env with
      | Some e => (inl e, {| pending := pending s; active := false |}, w)
      | None => (inr (), new_session, w')
      end
  end.

(** [db.session.rollback()] *)
Definition session_rollback (s : Session) : Session := new_session.

(** *** Files *)

(** [photo_file.save(path)]: [inl e] when it raises [e]. *)
Definition save (env : Env) (f : FileStorage) (path : string) (w : World)
  : (string + unit) * World :=
  match save_outcome env with
  | SaveOk =>
      (inr (), {| users := users w; photos := photos w;
                  disk := <[path := stream f]> (disk w) |})
  | SaveRaises e None => (inl e, w)
  | SaveRaises e (Some part) =>
      (inl e, {| users := users w; photos := photos w;
                 disk := <[path := part]> (disk w) |})
  end.

(** [os.path.exists(path)] and [os.remove(path)] *)
Definition path_exists (path : string) (w : World) : bool :=
  bool_decide (is_Some (disk w !! path)).

Definition remove (path : string) (w : World) : World :=
  {| users := users w; photos := photos w; disk := delete path (disk w) |}.

(** ** Routes *)

(** Truth value of a form value: [None] and [''] are false. *)
Definition truthy (v : option string) : bool :=
  match v with
  | Some s => negb (String.eqb s "")
  | None => false
  end.

(** [all([...])] *)
Definition all (l : list (option string)) : bool := forallb truthy l.

Definition reply (m : string) (code : N) (w : World) (s : Session) : Result :=
  {| response := Json m code; world := w; session := s |}.

Definition register (env : Env) (request : Request) (w : World) : Result :=
  let s := new_session in
  let data := form request in
  let full_name := get data "fullName" in
  let vit_id := get data "vitId" in
  let email := get data "email" in
  let password := get data "password" in
  let confirm_password := get data "confirmPassword" in
  if negb (all [full_name; vit_id; email; password; confirm_password]) then
    reply "All fields are required!" 400 w s
  else
    (* from here on every field is a non-empty str *)
    let full_name := default "" full_name in
    let vit_id := default "" vit_id in
    let email := default "" email in
    let password := default "" password in
    let confirm_password := default "" confirm_password in
    if negb (String.eqb password confirm_password) then
      reply "Passwords do not match!" 400 w s
    else if negb (Re.match_ VIT_ID_PATTERN vit_id) then
      reply "Invalid VIT ID format." 400 w s
    else if bool_decide (is_Some (first_by_vit_id vit_id (users w)))
            || bool_decide (is_Some (first_by_email email (users w))) then
      reply "User with this VIT ID or Email already exists!" 409 w s
    else
      let new_user := User.mk None full_name vit_id email password in
      let s := session_add (AUser new_user) s in
      match session_commit env s w with
      | (inr _, s, w) => reply "Registration successful!" 201 w s
      | (inl e, s, w) =>
          let s := session_rollback s in
          reply ("Error registering user: " ++ e) 500 w s
      end.

(** [photo_file and allowed_file(photo_file.filename)]: the right operand
    is evaluated only when the left one is true. *)
Definition file_check (photo_file : FileStorage) : option bool :=
  if FileStorage_bool photo_file then allowed_file (filename photo_file)
  else Some false.

Definition submit_photo (env : Env) (request : Request) (w : World) : Result :=
  let s := new_session in
  let full_name := get (form request) "fullName" in
  let vit_id := get (form request) "vitId" in
  let photo_title := get (form request) "photoTitle" in
  let theme := get (form request) "theme" in
  let description := get (form request) "description" in
  if negb (all [full_name; vit_id; photo_title; theme]) then
    reply "Required fields are missing!" 400 w s
  else
    (* from here on the four required fields are non-empty strs *)
    let full_name := default "" full_name in
    let vit_id := default "" vit_id in
    let photo_title := default "" photo_title in
    let theme := default "" theme in
    if negb (Re.match_ VIT_ID_PATTERN vit_id) then
      reply "Invalid VIT ID format." 400 w s
    else
      match get (files request) "photoFile" with
      | None => reply "No photo file part in the request!" 400 w s
      | Some photo_file =>
          if String.eqb (filename photo_file) "" then
            reply "No selected photo file!" 400 w s
          else
            match file_check photo_file with
            | None => {| response := InternalServerError; world := w; session := s |}
            | Some false =>
                reply "Invalid file type. Only PNG, JPG, JPEG are allowed!" 400 w s
            | Some true =>
                let filename := Werkzeug.secure_filename (filename photo_file) in
                let file_path := Os.path_join UPLOAD_FOLDER filename in
                match save env photo_file file_path w with
                | (inl e, w) => reply ("Error saving file: " ++ e) 500 w s
                | (inr _, w) =>
                    let new_submission :=
                      PhotoSubmission.mk None full_name vit_id photo_title theme
                        description filename None in
                    let s := session_add (APhoto new_submission) s in
                    match session_commit env s w with
                    | (inr _, s, w) => reply "Photo submitted successfully!" 201 w s
                    | (inl e, s, w) =>
                        let s := session_rollback s in
                        let w := if path_exists file_path w
                                 then remove file_path w else w in
                        reply ("Error saving submission to database: " ++ e) 500 w s
                    end
                end
            end
      end.

(** ** Vocabulary of the specification *)

(** The part of [s] before its first [c] (all of [s] when there is none). *)
Fixpoint before_first (c : ascii) (s : string) : string :=
  match s with
  | EmptyString => EmptyString
  | String a s' => if Ascii.eqb a c then EmptyString else String a (before_first c s')
  end.

(** The substring of [s] after its last [c], read off the reversed string. *)
Definition after_last (c : ascii) (s : string) : string :=
  String.rev (before_first c (String.rev s)).

(** "the filename contains a dot and the substring after its last dot,
    lowercased, is one of png, jpg, jpeg" *)
Definition extension_allowed (filename : string) : bool :=
  Str.contains "." filename
  && bool_decide (Str.lower (after_last "." filename)
                    ∈ ({["png"; "jpg"; "jpeg"]} : gset string)).

Definition digit (c : ascii) : bool := Str.in_range "0" "9" c.
Definition upper (c : ascii) : bool := Str.in_range "A" "Z" c.

(** "exactly 2 digits, 3 uppercase letters, 4 digits and nothing else" *)
Definition is_vit_id (s : string) : bool :=
  match list_ascii_of_string s with
  | [a; b; c; d; e; f; g; h; i] =>
      digit a && digit b && upper c && upper d && upper e
      && digit f && digit g && digit h && digit i
  | _ => false
  end.

(** What the pattern accepts under [re.match]: an institutional ID,
    optionally followed by one newline. *)
Definition pattern_accepts (s : string) : bool :=
  match list_ascii_of_string s with
  | [a; b; c; d; e; f; g; h; i] =>
      digit a && digit b && upper c && upper d && upper e
      && digit f && digit g && digit h && digit i
  | [a; b; c; d; e; f; g; h; i; nl] =>
      digit a && digit b && upper c && upper d && upper e
      && digit f && digit g && digit h && digit i && Ascii.eqb nl Str.LF
  | _ => false
  end.

Definition letter (c : ascii) : bool :=
  Str.in_range "A" "Z" c || Str.in_range "a" "z" c.

(** The form fields named [keys] are present, i.e. have a non-empty value:
    the condition the handlers test with [all([...])]. *)
Definition fields_present (request : Request) (keys : list string) : bool :=
  forallb (λ k, truthy (get (form request) k)) keys.

(** The submitted value of a form field. *)
Definition field (request : Request) (key : string) : string :=
  default "" (get (form request) key).

Definition REGISTER_FIELDS : list string :=
  ["fullName"; "vitId"; "email"; "password"; "confirmPassword"].

Definition PHOTO_FIELDS : list string :=
  ["fullName"; "vitId"; "photoTitle"; "theme"].

(** Institutional ID and email are unique across Users. *)
Definition unique_users (w : World) : Prop :=
  NoDup (User.vit_id <$> users w) ∧ NoDup (User.email <$> users w).

(** Where [submit_photo] saves the file of a request. *)
Definition upload_path (f : FileStorage) : string :=
  Os.path_join UPLOAD_FOLDER (Werkzeug.secure_filename (filename f)).

(** The row [submit_photo] inserts for a request in world [w]. *)
Definition submission_row (env : Env) (request : Request) (f : FileStorage)
    (w : World) : PhotoSubmission.t :=
  PhotoSubmission.mk
    (Some (next_id (PhotoSubmission.id <$> photos w)))
    (field request "fullName") (field request "vitId")
    (field request "photoTitle") (field request "theme")
    (get (form request) "description")
    (Werkzeug.secure_filename (filename f)) (Some (now env)).

(** ** Sample requests and worlds *)

Definition env_ok : Env :=
  {| save_outcome := SaveOk; commit_error := None; now := 1700000000 |}.

Definition env_commit_raises : Env :=
  {| save_outcome := SaveOk; commit_error := Some "database is locked";
     now := 1700000000 |}.

Definition env_save_raises : Env :=
  {| save_outcome := SaveRaises "No space left on device" (Some [x89; x50]);
     commit_error := None; now := 1700000000 |}.

Definition empty_world : World := {| users := []; photos := []; disk := ∅ |}.

Definition alice : User.t :=
  User.mk (Some 1) "Alice" "21ABC1234" "alice@vit.ac.in" "secret".

Definition world_with_alice : World :=
  {| users := [alice]; photos := []; disk := ∅ |}.

Definition register_request (full_name vit_id email password confirm : string)
  : Request :=
  {| form := [("fullName", full_name); ("vitId", vit_id); ("email", email);
              ("password", password); ("confirmPassword", confirm)];
     files := [] |}.

Definition photo_request (vit_id : string) (file : list (string * FileStorage))
  : Request :=
  {| form := [("fullName", "Alice"); ("vitId", vit_id);
              ("photoTitle", "Sunrise"); ("theme", "Nature")];
     files := file |}.

Definition png_bytes : list byte := [x89; x50; x4e; x47].

Definition photo (name : string) (content : list byte)
  : list (string * FileStorage) :=
  [("photoFile", {| filename := name; stream := content |})].

(** ** The [__repr__] methods of the models *)

(** [User.__repr__]: [f"<User {self.vit_id}>"] *)
Definition User_repr (u : User.t) : string :=
  "<User " ++ User.vit_id u ++ ">".

(** [PhotoSubmission.__repr__]:
    [f"<Photo {self.photo_title} by {self.full_name}>"] *)
Definition PhotoSubmission_repr (p : PhotoSubmission.t) : string :=
  "<Photo " ++ PhotoSubmission.photo_title p ++ " by "
  ++ PhotoSubmission.full_name p ++ ">".

(** ** What the handlers guarantee of the rows they store *)

Definition nonempty (s : string) : bool := negb (String.eqb s "").

(** A stored User: keyed, every column filled, the vitId one that the
    format check lets through. *)
Definition user_row_ok (u : User.t) : bool :=
  bool_decide (is_Some (User.id u))
  && nonempty (User.full_name u)
  && Re.match_ VIT_ID_PATTERN (User.vit_id u)
  && nonempty (User.email u)
  && nonempty (User.password u).

(** A stored PhotoSubmission: keyed and stamped, the required columns
    filled, the vitId one that the format check lets through, and the
    filename a non-empty name without a path separator. *)
Definition photo_row_ok (p : PhotoSubmission.t) : bool :=
  bool_decide (is_Some (PhotoSubmission.id p))
  && bool_decide (is_Some (PhotoSubmission.timestamp p))
  && nonempty (PhotoSubmission.full_name p)
  && Re.match_ VIT_ID_PATTERN (PhotoSubmission.vit_id p)
  && nonempty (PhotoSubmission.photo_title p)
  && nonempty (PhotoSubmission.theme p)
  && nonempty (PhotoSubmission.photo_filename p)
  && negb (Str.contains "/" (PhotoSubmission.photo_filename p)).

(** An ASCII letter or digit. *)
Definition alnum (c : ascii) : bool :=
  Str.in_range "A" "Z" c || Str.in_range "a" "z" c || Str.in_range "0" "9" c.

(** An environment in which [photo_file.save] works and the commit raises. *)
Definition env_commit_raises_with (e : string) : Env :=
  {| save_outcome := SaveOk; commit_error := Some e; now := 1700000000 |}.

(** A photo submission that passes every check of [submit_photo], with
    [f] the file it carries. *)
Definition passes_checks (request : Request) (f : FileStorage) : Prop :=
  fields_present request PHOTO_FIELDS = true
  ∧ Re.match_ VIT_ID_PATTERN (field request "vitId") = true
  ∧ get (files request) "photoFile" = Some f
  ∧ filename f ≠ ""
  ∧ allowed_file (filename f) = Some true.

(** * Properties *)

(** ** The library functions on sample inputs *)

Example rsplit1_last_dot : Str.rsplit1 "." "a.tar.gz" = ["a.tar"; "gz"].
Proof. reflexivity. Qed.

Example rsplit1_no_dot : Str.rsplit1 "." "README" = ["README"].
Proof. reflexivity. Qed.

Example split_runs : Str.split "  a b   c " = ["a"; "b"; "c"].
Proof. reflexivity. Qed.

Example strip_both_ends : Str.strip "._" "..a_b._" = "a_b".
Proof. reflexivity. Qed.

Example lower_ascii : Str.lower "JpEg" = "jpeg".
Proof. reflexivity. Qed.

Example match_plain : Re.match_ VIT_ID_PATTERN "21ABC1234" = true.
Proof. reflexivity. Qed.

Example match_short : Re.match_ VIT_ID_PATTERN "abc123" = false.
Proof. reflexivity. Qed.

Example match_long : Re.match_ VIT_ID_PATTERN "21ABC12345" = false.
Proof. reflexivity. Qed.

Example match_lowercase : Re.match_ VIT_ID_PATTERN "21abc1234" = false.
Proof. reflexivity. Qed.

Example secure_filename_spaces :
  Werkzeug.secure_filename "My cool movie.mov" = "My_cool_movie.mov".
Proof. reflexivity. Qed.

Example secure_filename_traversal :
  Werkzeug.secure_filename "../../../etc/passwd" = "etc_passwd".
Proof. reflexivity. Qed.

Example secure_filename_umlauts :
  Werkzeug.secure_filename
    ("i contain cool " ++ String (ascii_of_N 252) "ml"
       ++ String (ascii_of_N 228) "uts.txt")
  = "i_contain_cool_umlauts.txt".
Proof. reflexivity. Qed.

Example secure_filename_may_be_empty : Werkzeug.secure_filename "../.." = "".
Proof. reflexivity. Qed.

Example allowed_file_samples :
  allowed_file "photo.gif" = Some false
  ∧ allowed_file "photo.PNG" = Some true
  ∧ allowed_file "a.b.JpEg" = Some true
  ∧ allowed_file "png" = Some false
  ∧ allowed_file ".jpg" = Some true.
Proof. repeat split. Qed.

Example path_join_relative : Os.path_join "uploads" "a.png" = "uploads/a.png".
Proof. reflexivity. Qed.

Example path_join_absolute : Os.path_join "uploads" "/etc/passwd" = "/etc/passwd".
Proof. reflexivity. Qed.

(** ** Characters and strings *)

Ltac each_char c := destruct c as [[] [] [] [] [] [] [] []].

Module StrFacts.
Import Str.

Lemma app_nil (s : string) : "" ++ s = s.
Proof. reflexivity. Qed.

Lemma app_cons c (s t : string) : String c s ++ t = String c (s ++ t).
Proof. reflexivity. Qed.

Lemma app_empty_r (s : string) : s ++ "" = s.
Proof. induction s as [|c s IH]; [done | by rewrite app_cons, IH]. Qed.

Lemma app_assoc (a b c : string) : (a ++ b) ++ c = a ++ (b ++ c).
Proof. induction a as [|x a IH]; [done | by rewrite !app_cons, IH]. Qed.

Lemma contains_app c (a b : string) :
  contains c (a ++ b) = contains c a || contains c b.
Proof.
  induction a as [|x a IH]; [done |].
  rewrite app_cons. simpl. rewrite IH. by destruct (Ascii.eqb x c).
Qed.

Lemma rev_app_spec (s acc : string) :
  String.rev_app s acc = String.rev s ++ acc.
Proof.
  unfold String.rev. revert acc.
  induction s as [|c s IH]; intros acc; simpl; [done |].
  rewrite (IH (String c acc)), (IH (String c "")).
  by rewrite app_assoc.
Qed.

Lemma rev_cons c (s : string) : String.rev (String c s) = String.rev s ++ String c "".
Proof. unfold String.rev at 1. simpl. apply rev_app_spec. Qed.

Lemma rev_app (a b : string) : String.rev (a ++ b) = String.rev b ++ String.rev a.
Proof.
  induction a as [|x a IH].
  - change (String.rev "") with "". by rewrite app_empty_r.
  - by rewrite app_cons, !rev_cons, IH, app_assoc.
Qed.

Lemma rev_involutive (s : string) : String.rev (String.rev s) = s.
Proof.
  induction s as [|c s IH]; [done |].
  by rewrite rev_cons, rev_app, IH.
Qed.

Lemma contains_rev c (s : string) : contains c (String.rev s) = contains c s.
Proof.
  induction s as [|x s IH]; [done |].
  rewrite rev_cons, contains_app, IH. simpl.
  destruct (Ascii.eqb x c), (contains c s); done.
Qed.

Lemma contains_map_fixed (f : ascii → ascii) c (s : string) :
  f c = c → contains c s = true → contains c (map f s) = true.
Proof.
  intros Hf. induction s as [|x s IH]; simpl; [done |].
  destruct (Ascii.eqb x c) eqn:E.
  - apply Ascii.eqb_eq in E as ->. rewrite Hf, Ascii.eqb_refl. done.
  - simpl. intros H. rewrite (IH H). by destruct (Ascii.eqb (f x) c).
Qed.

Lemma contains_flat_map (f : ascii → string) c (s : string) :
  f c = String c "" → contains c s = true → contains c (flat_map f s) = true.
Proof.
  intros Hf. induction s as [|x s IH]; simpl; [done |].
  rewrite contains_app.
  destruct (Ascii.eqb x c) eqn:E.
  - apply Ascii.eqb_eq in E as ->. rewrite Hf. simpl.
    by rewrite Ascii.eqb_refl.
  - simpl. intros H. rewrite (IH H). by destruct (contains c (f x)).
Qed.

Lemma contains_filter (p : ascii → bool) c (s : string) :
  p c = true → contains c s = true → contains c (filter p s) = true.
Proof.
  intros Hp. induction s as [|x s IH]; simpl; [done |].
  destruct (Ascii.eqb x c) eqn:E.
  - apply Ascii.eqb_eq in E as ->. rewrite Hp. simpl.
    by rewrite Ascii.eqb_refl.
  - simpl. intros H. destruct (p x); simpl; rewrite ?E; auto.
Qed.

Lemma contains_drop_while (p : ascii → bool) c (s : string) :
  p c = false → contains c s = true → contains c (drop_while p s) = true.
Proof.
  intros Hp. induction s as [|x s IH]; simpl; [done |].
  destruct (p x) eqn:Px; [| done].
  destruct (Ascii.eqb x c) eqn:E.
  - apply Ascii.eqb_eq in E as ->. congruence.
  - simpl. apply IH.
Qed.

Lemma contains_nonempty c (s : string) : contains c s = true → s ≠ "".
Proof. by destruct s. Qed.

End StrFacts.

(** ** [allowed_file] against the wording of the specification *)

Module SplitFacts.
Import Str StrFacts.

Lemma rpartition_none c (s : string) :
  rpartition c s = None ↔ contains c s = false.
Proof.
  induction s as [|a s IH]; simpl; [done |].
  destruct (rpartition c s) as [[l r]|].
  - split; [done |]. intros H.
    apply orb_false_iff in H as [_ H]. apply IH in H. done.
  - destruct IH as [IH _]. rewrite (IH eq_refl), orb_false_r.
    by destruct (Ascii.eqb a c).
Qed.

Lemma rpartition_some c (s l r : string) :
  rpartition c s = Some (l, r) → s = l ++ String c r ∧ contains c r = false.
Proof.
  revert l. induction s as [|a s IH]; intros l; simpl; [done |].
  destruct (rpartition c s) as [[l' r']|] eqn:E.
  - intros [= <- <-]. destruct (IH l' eq_refl) as [-> Hr]. done.
  - destruct (Ascii.eqb a c) eqn:Ea; [| done].
    intros [= <- <-]. apply Ascii.eqb_eq in Ea as ->.
    split; [done |]. by apply rpartition_none.
Qed.

Lemma before_first_app c (a b : string) :
  contains c a = false → before_first c (a ++ String c b) = a.
Proof.
  induction a as [|x a IH]; rewrite ?app_cons; simpl.
  - by rewrite Ascii.eqb_refl.
  - intros H. apply orb_false_iff in H as [-> H]. by rewrite IH.
Qed.

Lemma after_last_app c (l r : string) :
  contains c r = false → after_last c (l ++ String c r) = r.
Proof.
  intros H. unfold after_last.
  rewrite rev_app, rev_cons, app_assoc, app_cons, app_nil.
  rewrite before_first_app by by rewrite contains_rev.
  apply rev_involutive.
Qed.

Lemma rsplit1_second c (s : string) :
  contains c s = true → rsplit1 c s !! 1%nat = Some (after_last c s).
Proof.
  intros H. unfold rsplit1.
  destruct (rpartition c s) as [[l r]|] eqn:E.
  - apply rpartition_some in E as [-> Hr]. simpl.
    by rewrite after_last_app.
  - apply rpartition_none in E. congruence.
Qed.

End SplitFacts.

(** The code's check and the specification's wording agree, and the
    subscript in [allowed_file] never raises. *)
Lemma allowed_file_spec (filename : string) :
  allowed_file filename = Some (extension_allowed filename).
Proof.
  unfold allowed_file, extension_allowed.
  destruct (Str.contains "." filename) eqn:E; [| done].
  by rewrite SplitFacts.rsplit1_second.
Qed.

(** ** The institutional-ID pattern *)

Ltac split_ranges :=
  cbn -[Str.in_range Ascii.eqb Str.LF];
  repeat match goal with
         | |- context [Str.in_range ?a ?b ?c] =>
             destruct (Str.in_range a b c);
             cbn -[Str.in_range Ascii.eqb Str.LF]; try reflexivity
         end;
  try reflexivity.

Lemma vit_id_pattern_accepts (s : string) :
  Re.match_ VIT_ID_PATTERN s = pattern_accepts s.
Proof.
  unfold Re.match_, VIT_ID_PATTERN, pattern_accepts, digit, upper.
  do 9 (destruct s as [|? s]; [split_ranges |]).
  destruct s as [|x [|y s]]; split_ranges.
  by destruct (Ascii.eqb x Str.LF).
Qed.

Lemma pattern_accepts_iff (s : string) :
  Re.match_ VIT_ID_PATTERN s = true
  ↔ is_vit_id s = true ∨ ∃ s0, is_vit_id s0 = true ∧ s = s0 ++ String Str.LF "".
Proof.
  rewrite vit_id_pattern_accepts. unfold pattern_accepts, is_vit_id.
  split.
  - do 9 (destruct s as [|? s]; [simpl; discriminate |]).
    destruct s as [|x [|y s]]; simpl; [auto | | discriminate].
    intros H. apply andb_true_iff in H as [H Hx].
    apply Ascii.eqb_eq in Hx as ->. right.
    eexists (String _ (String _ (String _ (String _ (String _
              (String _ (String _ (String _ (String _ ""))))))))).
    split; [exact H | reflexivity].
  - intros [H | (s0 & H & ->)].
    + do 9 (destruct s as [|? s]; [simpl in H; discriminate |]).
      destruct s; [exact H | simpl in H; discriminate].
    + do 9 (destruct s0 as [|? s0]; [simpl in H; discriminate |]).
      destruct s0; [| simpl in H; discriminate].
      simpl in H. simpl. rewrite H. reflexivity.
Qed.

(** ** [secure_filename] *)

Module SecureFacts.
Import Str StrFacts SplitFacts Werkzeug.

(** Every stage of [secure_filename] leaves an ASCII letter alone. *)
Lemma letter_survives c :
  letter c = true →
  nfkd_ascii c = String c ""
  ∧ (if Ascii.eqb c "/" then " "%char else c) = c
  ∧ isspace c = false
  ∧ filename_char c = true
  ∧ contains c "._" = false.
Proof.
  each_char c; intros H; vm_compute in H; try discriminate H;
    vm_compute; repeat split; reflexivity.
Qed.

Lemma lower_letter c : letter (lower_char c) = true → letter c = true.
Proof. each_char c; vm_compute; intros H; done. Qed.

Lemma contains_drop_while_inv (p : ascii → bool) c (s : string) :
  contains c (drop_while p s) = true → contains c s = true.
Proof.
  induction s as [|x s IH]; simpl; [done |].
  destruct (p x); [| done].
  intros H. rewrite (IH H). apply orb_true_r.
Qed.

Lemma contains_filter_inv (p : ascii → bool) c (s : string) :
  contains c (filter p s) = true → p c = true.
Proof.
  induction s as [|x s IH]; simpl; [done |].
  destruct (p x) eqn:Px; [| done]. simpl.
  destruct (Ascii.eqb x c) eqn:E; [| done].
  apply Ascii.eqb_eq in E as <-. done.
Qed.

Lemma contains_strip chars c (s : string) :
  contains c chars = false → contains c s = true →
  contains c (strip chars s) = true.
Proof.
  intros Hc Hs. unfold strip.
  rewrite contains_rev.
  apply (contains_drop_while (λ x, contains x chars)); [done |].
  rewrite contains_rev.
  by apply (contains_drop_while (λ x, contains x chars)).
Qed.

Lemma contains_strip_inv chars c (s : string) :
  contains c (strip chars s) = true → contains c s = true.
Proof.
  unfold strip. rewrite contains_rev. intros H.
  apply contains_drop_while_inv in H. rewrite contains_rev in H.
  by apply contains_drop_while_inv in H.
Qed.

Lemma contains_concat sep c (x : string) (l : list string) :
  x ∈ l → contains c x = true → contains c (String.concat sep l) = true.
Proof.
  intros Hin Hx. induction l as [|y l IH]; [by apply elem_of_nil in Hin |].
  apply elem_of_cons in Hin as [<- | Hin].
  - destruct l; simpl; [done |]. by rewrite contains_app, Hx.
  - specialize (IH Hin). destruct l; [by apply elem_of_nil in Hin |].
    simpl. rewrite !contains_app. simpl in IH. rewrite IH.
    by rewrite !orb_true_r.
Qed.

Lemma contains_split_go c (s cur : string) :
  isspace c = false →
  contains c cur || contains c s = true →
  ∃ x, x ∈ split_go cur s ∧ contains c x = true.
Proof.
  intros Hc. revert cur. induction s as [|a s IH]; intros cur H.
  - rewrite orb_false_r in H. simpl.
    destruct cur as [|b cur]; [done |].
    exists (String.rev (String b cur)). split; [apply list_elem_of_here |].
    by rewrite contains_rev.
  - simpl. destruct (isspace a) eqn:Ha.
    + assert (Ascii.eqb a c = false) as Hac.
      { destruct (Ascii.eqb a c) eqn:E; [| done].
        apply Ascii.eqb_eq in E as ->. congruence. }
      simpl in H. rewrite Hac in H. simpl in H.
      destruct cur as [|b cur].
      * apply (IH ""), H.
      * destruct (contains c (String b cur)) eqn:Hcur.
        -- exists (String.rev (String b cur)).
           split; [apply list_elem_of_here | by rewrite contains_rev].
        -- destruct (IH "" H) as (x & Hx & Hcx).
           exists x. split; [by apply list_elem_of_further | done].
    + apply IH. simpl in *.
      destruct (Ascii.eqb a c), (contains c cur), (contains c s); done.
Qed.

(** No character outside [[A-Za-z0-9_.-]] is left. *)
Lemma secure_filename_chars c (filename : string) :
  contains c (secure_filename filename) = true → filename_char c = true.
Proof.
  unfold secure_filename. intros H.
  apply contains_strip_inv in H. by apply contains_filter_inv in H.
Qed.

Lemma secure_filename_keeps c (filename : string) :
  letter c = true → contains c filename = true →
  contains c (secure_filename filename) = true.
Proof.
  intros Hl Hc.
  destruct (letter_survives c Hl) as (Hn & Hr & Hs & Hf & Hd).
  unfold secure_filename.
  apply contains_strip; [done |].
  apply contains_filter; [done |].
  apply (contains_flat_map nfkd_ascii) in Hc; [| done].
  apply (contains_map_fixed (λ x, if Ascii.eqb x "/" then " "%char else x))
    in Hc; [| done].
  destruct (contains_split_go c _ "" Hs Hc) as (x & Hx & Hcx).
  by apply (contains_concat "_" c x).
Qed.

(** A filename that passes [allowed_file] contains an ASCII letter (the
    first letter of its extension). *)
Lemma allowed_has_letter (filename : string) :
  allowed_file filename = Some true →
  ∃ c, letter c = true ∧ contains c filename = true.
Proof.
  unfold allowed_file.
  destruct (contains "." filename) eqn:Hdot; [| done].
  unfold rsplit1.
  destruct (rpartition "." filename) as [[l r]|] eqn:E; [| done].
  apply rpartition_some in E as [-> _]. simpl.
  intros [= H]. apply bool_decide_eq_true in H.
  assert (∃ c r', r = String c r' ∧ letter (lower_char c) = true)
    as (c & r' & -> & Hc).
  { unfold ALLOWED_EXTENSIONS in H.
    apply elem_of_union in H as [H | H];
      [apply elem_of_union in H as [H | H] |];
      apply elem_of_singleton in H;
      (destruct r as [|c r']; simpl in H; [discriminate H |]);
      exists c, r'; (split; [done |]);
      injection H as -> _; reflexivity. }
  exists c. split; [by apply lower_letter |].
  rewrite contains_app. simpl. rewrite Ascii.eqb_refl.
  by rewrite !orb_true_r.
Qed.

(** The sanitized name of an allowed file is one plain path component,
    and joining it to the upload folder puts it directly inside. *)
Lemma secure_filename_component (filename : string) :
  allowed_file filename = Some true →
  let name := secure_filename filename in
  name ≠ "" ∧ name ≠ "." ∧ name ≠ ".."
  ∧ contains "/" name = false
  ∧ Os.path_join UPLOAD_FOLDER name = UPLOAD_FOLDER ++ "/" ++ name.
Proof.
  intros Ha name.
  destruct (allowed_has_letter _ Ha) as (c & Hl & Hc).
  pose proof (secure_filename_keeps c filename Hl Hc) as Hk.
  fold name in Hk.
  assert (contains "/" name = false) as Hslash.
  { destruct (contains "/" name) eqn:E; [| done].
    apply secure_filename_chars in E. vm_compute in E. done. }
  destruct (letter_survives c Hl) as (_ & _ & _ & _ & Hd).
  simpl in Hd. apply orb_false_iff in Hd as [Hdot _].
  repeat split.
  - by apply (contains_nonempty c).
  - intros E. rewrite E in Hk. simpl in Hk. by rewrite Hdot in Hk.
  - intros E. rewrite E in Hk. simpl in Hk. by rewrite Hdot in Hk.
  - done.
  - unfold Os.path_join.
    destruct name as [|x name'] eqn:En; [done |].
    simpl in Hslash. apply orb_false_iff in Hslash as [Hx _].
    simpl. rewrite Hx. reflexivity.
Qed.

End SecureFacts.

(** ** Lookups in the User table *)

Section Handlers.

Variables (env : Env) (request : Request) (w : World).

Lemma find_none_vit_id (v : string) :
  (∀ u, u ∈ users w → User.vit_id u ≠ v) →
  first_by_vit_id v (users w) = None.
Proof.
  unfold first_by_vit_id. induction (users w) as [|u us IH]; intros H; [done |].
  simpl. destruct (String.eqb (User.vit_id u) v) eqn:E.
  - apply String.eqb_eq in E. exfalso. eapply H; [apply list_elem_of_here | done].
  - apply IH. intros u' Hu'. apply H. by apply list_elem_of_further.
Qed.

Lemma find_none_email (e : string) :
  (∀ u, u ∈ users w → User.email u ≠ e) →
  first_by_email e (users w) = None.
Proof.
  unfold first_by_email. induction (users w) as [|u us IH]; intros H; [done |].
  simpl. destruct (String.eqb (User.email u) e) eqn:E.
  - apply String.eqb_eq in E. exfalso. eapply H; [apply list_elem_of_here | done].
  - apply IH. intros u' Hu'. apply H. by apply list_elem_of_further.
Qed.

Lemma find_some_vit_id (u : User.t) :
  u ∈ users w → is_Some (first_by_vit_id (User.vit_id u) (users w)).
Proof.
  unfold first_by_vit_id. induction (users w) as [|u' us IH]; intros H.
  - by apply elem_of_nil in H.
  - simpl. destruct (String.eqb (User.vit_id u') (User.vit_id u)) eqn:E; [done |].
    apply elem_of_cons in H as [-> | H]; [| by apply IH].
    by rewrite String.eqb_refl in E.
Qed.

Lemma find_some_email (u : User.t) :
  u ∈ users w → is_Some (first_by_email (User.email u) (users w)).
Proof.
  unfold first_by_email. induction (users w) as [|u' us IH]; intros H.
  - by apply elem_of_nil in H.
  - simpl. destruct (String.eqb (User.email u') (User.email u)) eqn:E; [done |].
    apply elem_of_cons in H as [-> | H]; [| by apply IH].
    by rewrite String.eqb_refl in E.
Qed.

Lemma not_in_column {A} (col : User.t → A) (x : A) :
  (∀ u, u ∈ users w → col u ≠ x) → x ∉ col <$> users w.
Proof.
  intros H Hin. apply list_elem_of_fmap in Hin as (u & -> & Hu).
  by apply (H u).
Qed.

End Handlers.

(** ** Registration *)

Section Register.

Variables (env : Env) (request : Request) (w : World).

Lemma register_after_checks :
  fields_present request REGISTER_FIELDS = true →
  field request "password" = field request "confirmPassword" →
  Re.match_ VIT_ID_PATTERN (field request "vitId") = true →
  register env request w =
    if bool_decide (is_Some (first_by_vit_id (field request "vitId") (users w)))
       || bool_decide (is_Some (first_by_email (field request "email") (users w)))
    then reply "User with this VIT ID or Email already exists!" 409 w new_session
    else
      let new_user := User.mk None (field request "fullName")
                        (field request "vitId") (field request "email")
                        (field request "password") in
      match session_commit env (session_add (AUser new_user) new_session) w with
      | (inr _, s, w) => reply "Registration successful!" 201 w s
      | (inl e, s, w) =>
          reply ("Error registering user: " ++ e) 500 w (session_rollback s)
      end.
Proof.
  intros Hall Hpw Hvit. unfold register.
  change (all _) with (fields_present request REGISTER_FIELDS).
  rewrite Hall. cbn [negb].
  fold (field request "password") (field request "confirmPassword")
       (field request "vitId") (field request "email")
       (field request "fullName").
  rewrite <- Hpw, String.eqb_refl, Hvit. reflexivity.
Qed.

(** A request that reaches no insert leaves the world alone. *)
Lemma register_4xx_or_beyond :
  (status (response (register env request w)) = 400
   ∧ world (register env request w) = w
   ∧ session (register env request w) = new_session)
  ∨ (fields_present request REGISTER_FIELDS = true
     ∧ field request "password" = field request "confirmPassword"
     ∧ Re.match_ VIT_ID_PATTERN (field request "vitId") = true).
Proof.
  unfold register.
  change (all _) with (fields_present request REGISTER_FIELDS).
  destruct (fields_present request REGISTER_FIELDS); cbn [negb]; [| by left].
  fold (field request "password") (field request "confirmPassword")
       (field request "vitId").
  destruct (String.eqb (field request "password")
              (field request "confirmPassword")) eqn:Hpw; cbn [negb]; [| by left].
  apply String.eqb_eq in Hpw.
  destruct (Re.match_ VIT_ID_PATTERN (field request "vitId")); cbn [negb];
    [by right | by left].
Qed.

End Register.

Lemma flush_new_user (env : Env) (w : World) (u : User.t) :
  User.vit_id u ∉ User.vit_id <$> users w →
  User.email u ∉ User.email <$> users w →
  flush env [AUser u] w =
    inr {| users := users w ++ [User.mk (Some (next_id (User.id <$> users w)))
                                  (User.full_name u) (User.vit_id u)
                                  (User.email u) (User.password u)];
           photos := photos w; disk := disk w |}.
Proof.
  intros Hv He. simpl.
  rewrite (bool_decide_eq_false_2 _ Hv), (bool_decide_eq_false_2 _ He).
  reflexivity.
Qed.

Lemma flush_user_unique (env : Env) (w w' : World) (u : User.t) :
  flush env [AUser u] w = inr w' → unique_users w → unique_users w'.
Proof.
  simpl. case_bool_decide as He; [done |]. case_bool_decide as Hv; [done |].
  intros [= <-] [Nv Ne]. unfold unique_users. simpl.
  rewrite !fmap_app. simpl. split; apply NoDup_app.
  - split; [done |]. split; [| apply NoDup_singleton].
    intros x Hx Hx'. apply list_elem_of_singleton in Hx'. by subst.
  - split; [done |]. split; [| apply NoDup_singleton].
    intros x Hx Hx'. apply list_elem_of_singleton in Hx'. by subst.
Qed.

(** C2. A registration request whose five fields are present, whose
    password equals its confirmation, whose vitId matches the pattern and
    whose vitId and email are stored for no User is answered 201 when the
    storage layer accepts the commit, and the User table gains exactly one
    row, holding the submitted full name, vitId, email and (plaintext)
    password; nothing else changes. *)
Theorem register_creates_user (env : Env) (request : Request) (w : World) :
  fields_present request REGISTER_FIELDS = true →
  field request "password" = field request "confirmPassword" →
  Re.match_ VIT_ID_PATTERN (field request "vitId") = true →
  (∀ u, u ∈ users w →
        User.vit_id u ≠ field request "vitId"
        ∧ User.email u ≠ field request "email") →
  commit_error env = None →
  let r := register env request w in
  response r = Json "Registration successful!" 201
  ∧ users (world r) =
      (users w ++ [User.mk (Some (next_id (User.id <$> users w)))
                     (field request "fullName") (field request "vitId")
                     (field request "email") (field request "password")])%list
  ∧ photos (world r) = photos w
  ∧ disk (world r) = disk w.
Proof.
  intros Hall Hpw Hvit Hfresh Hcommit r. subst r.
  rewrite register_after_checks by done.
  rewrite find_none_vit_id by (intros u Hu; apply (Hfresh u Hu)).
  rewrite find_none_email by (intros u Hu; apply (Hfresh u Hu)).
  rewrite !bool_decide_eq_false_2 by (intros [? ?]; done).
  cbn [orb]. unfold session_commit, session_add. cbn [pending new_session app].
  rewrite flush_new_user.
  - rewrite Hcommit. simpl. done.
  - apply not_in_column. intros u Hu. apply (Hfresh u Hu).
  - apply not_in_column. intros u Hu. apply (Hfresh u Hu).
Qed.

Lemma register_creates_user_witness :
  let r := register env_ok
             (register_request "Bob" "22XYZ0007" "bob@vit.ac.in" "pw" "pw")
             world_with_alice in
  response r = Json "Registration successful!" 201
  ∧ users (world r) =
      [alice; User.mk (Some 2) "Bob" "22XYZ0007" "bob@vit.ac.in" "pw"]
  ∧ photos (world r) = []
  ∧ disk (world r) = ∅.
Proof.
  apply (register_creates_user env_ok
           (register_request "Bob" "22XYZ0007" "bob@vit.ac.in" "pw" "pw")
           world_with_alice); try reflexivity.
  intros u Hu. apply list_elem_of_singleton in Hu as ->.
  split; vm_compute; discriminate.
Defined.

(** C7. A registration request whose password and confirmation differ is
    answered 400, whatever its other fields are, and nothing is stored. *)
Theorem register_password_mismatch (env : Env) (request : Request) (w : World)
    (p c : string) :
  get (form request) "password" = Some p →
  get (form request) "confirmPassword" = Some c →
  p ≠ c →
  let r := register env request w in
  status (response r) = 400 ∧ world r = w ∧ session r = new_session.
Proof.
  intros Hp Hc Hne r. subst r.
  destruct (register_4xx_or_beyond env request w) as [H | (_ & Hpw & _)]; [done |].
  unfold field in Hpw. rewrite Hp, Hc in Hpw. done.
Qed.

Lemma register_password_mismatch_witness :
  let r := register env_ok
             (register_request "Bob" "22XYZ0007" "bob@vit.ac.in" "pw" "pv")
             world_with_alice in
  status (response r) = 400 ∧ world r = world_with_alice
  ∧ session r = new_session.
Proof.
  apply (register_password_mismatch env_ok
           (register_request "Bob" "22XYZ0007" "bob@vit.ac.in" "pw" "pv")
           world_with_alice "pw" "pv"); [reflexivity | reflexivity | discriminate].
Defined.

Lemma register_preserves_unique (env : Env) (request : Request) (w : World) :
  unique_users w → unique_users (world (register env request w)).
Proof.
  intros Hu.
  destruct (register_4xx_or_beyond env request w)
    as [(_ & -> & _) | (Hall & Hpw & Hvit)]; [done |].
  rewrite register_after_checks by done.
  destruct (_ || _); [done |].
  unfold session_commit, session_add. cbn [pending new_session app].
  destruct (flush env _ w) as [e | w'] eqn:Hflush; [done |].
  destruct (commit_error env); [done |].
  simpl. by eapply flush_user_unique.
Qed.

Lemma submit_photo_users (env : Env) (request : Request) (w : World) :
  users (world (submit_photo env request w)) = users w.
Proof.
  unfold submit_photo.
  repeat match goal with
         | |- context [if ?b then _ else _] => destruct b; try reflexivity
         | |- context [match ?x with _ => _ end] =>
             destruct x eqn:?; try reflexivity
         end;
  unfold save, session_commit in *; simpl in *;
  repeat match goal with
         | H : context [match ?x with _ => _ end] |- _ => destruct x eqn:?
         end;
  simplify_eq; reflexivity.
Qed.

(** C3 as stated fails: a request that repeats a stored vitId and email
    but whose passwords differ is answered 400, not 409. *)
Lemma register_duplicate_not_409 :
  let request :=
    register_request "Alice" "21ABC1234" "alice@vit.ac.in" "secret" "secrey" in
  (∃ u, u ∈ users world_with_alice
        ∧ (get (form request) "vitId" = Some (User.vit_id u)
           ∨ get (form request) "email" = Some (User.email u)))
  ∧ status (response (register env_ok request world_with_alice)) = 400
  ∧ status (response (register env_ok request world_with_alice)) ≠ 409.
Proof.
  split; [| split; vm_compute; [reflexivity | discriminate]].
  exists alice. split; [apply list_elem_of_here | left; reflexivity].
Qed.

(** C3, amended. Both handlers preserve the uniqueness of vitId and email
    across Users.  A registration request whose vitId or email is that of
    a stored User adds no row and changes nothing: it is answered 400 when
    it fails the presence, password or ID-format check (these come first),
    and 409 when it passes them.  Hence the same request submitted again
    after a successful registration is answered 409 and the table keeps
    the rows it had. *)
Theorem register_duplicate (env : Env) (request : Request) (w : World) :
  (unique_users w →
   unique_users (world (register env request w))
   ∧ unique_users (world (submit_photo env request w)))
  ∧ (∀ u, u ∈ users w →
          get (form request) "vitId" = Some (User.vit_id u)
          ∨ get (form request) "email" = Some (User.email u) →
          let r := register env request w in
          world r = w
          ∧ (fields_present request REGISTER_FIELDS = false
             ∨ field request "password" ≠ field request "confirmPassword"
             ∨ Re.match_ VIT_ID_PATTERN (field request "vitId") = false →
             status (response r) = 400)
          ∧ (fields_present request REGISTER_FIELDS = true →
             field request "password" = field request "confirmPassword" →
             Re.match_ VIT_ID_PATTERN (field request "vitId") = true →
             response r =
               Json "User with this VIT ID or Email already exists!" 409))
  ∧ (∀ env', status (response (register env request w)) = 201 →
             let r' := register env' request (world (register env request w)) in
             status (response r') = 409
             ∧ world r' = world (register env request w)
             ∧ List.length (users (world r')) = S (List.length (users w))).
Proof.
  split; [| split].
  - intros Hu. split; [by apply register_preserves_unique |].
    destruct Hu as [Hv He]. unfold unique_users.
    by rewrite submit_photo_users.
  - intros u Hu Hdup r.
    assert (fields_present request REGISTER_FIELDS = true →
            field request "password" = field request "confirmPassword" →
            Re.match_ VIT_ID_PATTERN (field request "vitId") = true →
            r = reply "User with this VIT ID or Email already exists!" 409
                  w new_session) as Hdupl.
    { intros Hall Hpw Hvit. subst r.
      rewrite register_after_checks by done.
      destruct Hdup as [Hd | Hd].
      - replace (field request "vitId") with (User.vit_id u)
          by (unfold field; by rewrite Hd).
        rewrite (bool_decide_eq_true_2 _ (find_some_vit_id w u Hu)). done.
      - replace (field request "email") with (User.email u)
          by (unfold field; by rewrite Hd).
        rewrite (bool_decide_eq_true_2 _ (find_some_email w u Hu)).
        by rewrite orb_true_r. }
    destruct (register_4xx_or_beyond env request w)
      as [(Hs & Hw & _) | (Hall & Hpw & Hvit)].
    + fold r in Hs, Hw. split; [done |]. split; [done |].
      intros Hall Hpw Hvit. by rewrite (Hdupl Hall Hpw Hvit).
    + rewrite (Hdupl Hall Hpw Hvit). split; [done |]. split; [| done].
      intros [Hno | [Hno | Hno]]; [congruence | done | congruence].
  - intros env' H201.
    destruct (register_4xx_or_beyond env request w)
      as [(Hs & _) | (Hall & Hpw & Hvit)]; [rewrite Hs in H201; done |].
    revert H201. rewrite (register_after_checks env) by done.
    destruct (_ || _); [simpl; done |].
    unfold session_commit, session_add. cbn [pending new_session app].
    cbn [flush insert User.vit_id User.email].
    case_bool_decide; [simpl; done |]. case_bool_decide; [simpl; done |].
    destruct (commit_error env); [simpl; done |].
    intros _. cbn [world reply users].
    set (w1 := {| users := _ |}).
    rewrite register_after_checks by done.
    assert (is_Some (first_by_vit_id (field request "vitId") (users w1))) as Hin.
    { pose (row := User.mk (Some (next_id (User.id <$> users w)))
                     (field request "fullName") (field request "vitId")
                     (field request "email") (field request "password")).
      apply (find_some_vit_id w1 row). subst w1. simpl.
      apply elem_of_app. right. apply list_elem_of_here. }
    rewrite (bool_decide_eq_true_2 _ Hin). simpl.
    split; [done |]. split; [done |].
    rewrite List.length_app. simpl. lia.
Qed.

Lemma register_duplicate_witness :
  let request :=
    register_request "Alice" "21ABC1234" "alice@vit.ac.in" "secret" "secret" in
  let mismatched :=
    register_request "Alice" "21ABC1234" "alice@vit.ac.in" "secret" "secrey" in
  let r1 := register env_ok request empty_world in
  let r2 := register env_ok request (world r1) in
  let r3 := register env_ok mismatched world_with_alice in
  status (response r1) = 201
  ∧ response r2 = Json "User with this VIT ID or Email already exists!" 409
  ∧ world r2 = world r1
  ∧ List.length (users (world r2)) = 1%nat
  ∧ status (response r3) = 400
  ∧ world r3 = world_with_alice.
Proof.
  intros request mismatched r1 r2 r3.
  pose proof (register_duplicate env_ok request (world r1)) as (_ & Hdup & _).
  pose proof (register_duplicate env_ok request empty_world) as (_ & _ & Htwice).
  pose proof (register_duplicate env_ok mismatched world_with_alice)
    as (_ & Hbad & _).
  split; [reflexivity |].
  destruct (Hdup alice) as (Hw & _ & H409);
    [apply list_elem_of_here | left; reflexivity |].
  destruct (Htwice env_ok eq_refl) as (_ & _ & Hlen).
  destruct (Hbad alice) as (Hw3 & H400 & _);
    [apply list_elem_of_here | left; reflexivity |].
  split; [apply H409; reflexivity |]. split; [exact Hw |]. split; [exact Hlen |].
  split; [| exact Hw3].
  apply H400. right. left. discriminate.
Defined.

(** ** Photo submission *)

Section SubmitPhoto.

Variables (env : Env) (request : Request) (w : World).

(** A request that fails the text checks is answered 400 and changes
    nothing. *)
Lemma submit_photo_text_checks :
  (status (response (submit_photo env request w)) = 400
   ∧ world (submit_photo env request w) = w
   ∧ session (submit_photo env request w) = new_session)
  ∨ (fields_present request PHOTO_FIELDS = true
     ∧ Re.match_ VIT_ID_PATTERN (field request "vitId") = true).
Proof.
  unfold submit_photo.
  change (all _) with (fields_present request PHOTO_FIELDS).
  destruct (fields_present request PHOTO_FIELDS); cbn [negb]; [| by left].
  fold (field request "vitId").
  destruct (Re.match_ VIT_ID_PATTERN (field request "vitId")); cbn [negb];
    [by right | by left].
Qed.

Lemma submit_photo_file_checks :
  fields_present request PHOTO_FIELDS = true →
  Re.match_ VIT_ID_PATTERN (field request "vitId") = true →
  submit_photo env request w =
    match get (files request) "photoFile" with
    | None => reply "No photo file part in the request!" 400 w new_session
    | Some f =>
        if String.eqb (filename f) "" then
          reply "No selected photo file!" 400 w new_session
        else if extension_allowed (filename f) then
          match save env f (upload_path f) w with
          | (inl e, w1) => reply ("Error saving file: " ++ e) 500 w1 new_session
          | (inr _, w1) =>
              let row := PhotoSubmission.mk None
                           (field request "fullName") (field request "vitId")
                           (field request "photoTitle") (field request "theme")
                           (get (form request) "description")
                           (Werkzeug.secure_filename (filename f)) None in
              match session_commit env (session_add (APhoto row) new_session) w1 with
              | (inr _, s, w2) => reply "Photo submitted successfully!" 201 w2 s
              | (inl e, s, w2) =>
                  reply ("Error saving submission to database: " ++ e) 500
                    (if path_exists (upload_path f) w2
                     then remove (upload_path f) w2 else w2)
                    (session_rollback s)
              end
          end
        else reply "Invalid file type. Only PNG, JPG, JPEG are allowed!" 400
               w new_session
    end.
Proof.
  intros Hall Hvit. unfold submit_photo.
  change (all _) with (fields_present request PHOTO_FIELDS).
  rewrite Hall. cbn [negb].
  fold (field request "vitId") (field request "fullName")
       (field request "photoTitle") (field request "theme").
  rewrite Hvit. cbn [negb].
  destruct (get (files request) "photoFile") as [f |]; [| done].
  destruct (String.eqb (filename f) "") eqn:Hname; [done |].
  unfold file_check, FileStorage_bool. rewrite Hname. cbn [negb].
  rewrite allowed_file_spec.
  destruct (extension_allowed (filename f)); [| done].
  unfold upload_path.
  destruct (save env f _ w) as [[e | []] w1]; [done |].
  destruct (session_commit env _ w1) as [[[e | []] s] w2]; done.
Qed.

End SubmitPhoto.

Lemma string_eqb_false (a b : string) : a ≠ b → String.eqb a b = false.
Proof. intros H. by apply String.eqb_neq. Qed.

Lemma commit_photo (env : Env) (p : PhotoSubmission.t) (w : World) :
  session_commit env (session_add (APhoto p) new_session) w =
    match commit_error env with
    | Some e => (inl e, {| pending := [APhoto p]; active := false |}, w)
    | None =>
        (inr (), new_session,
         {| users := users w;
            photos := photos w ++
              [PhotoSubmission.mk
                 (Some (next_id (PhotoSubmission.id <$> photos w)))
                 (PhotoSubmission.full_name p) (PhotoSubmission.vit_id p)
                 (PhotoSubmission.photo_title p) (PhotoSubmission.theme p)
                 (PhotoSubmission.description p)
                 (PhotoSubmission.photo_filename p) (Some (now env))];
            disk := disk w |})
    end.
Proof. reflexivity. Qed.

(** C1. When a photo submission passes every check and the file is saved
    but the commit raises, the handler rolls the session back, deletes the
    file it saved (nothing is left at its path) and answers 500; the
    tables are as before. *)
Theorem submit_photo_commit_raises (env : Env) (request : Request) (w : World)
    (f : FileStorage) (e : string) :
  fields_present request PHOTO_FIELDS = true →
  Re.match_ VIT_ID_PATTERN (field request "vitId") = true →
  get (files request) "photoFile" = Some f →
  filename f ≠ "" →
  allowed_file (filename f) = Some true →
  save_outcome env = SaveOk →
  commit_error env = Some e →
  let r := submit_photo env request w in
  response r = Json ("Error saving submission to database: " ++ e) 500
  ∧ disk (world r) !! upload_path f = None
  ∧ disk (world r) = delete (upload_path f) (disk w)
  ∧ session r = new_session
  ∧ users (world r) = users w
  ∧ photos (world r) = photos w.
Proof.
  intros Hall Hvit Hf Hname Hallowed Hsave Hcommit r. subst r.
  rewrite submit_photo_file_checks by done.
  rewrite allowed_file_spec in Hallowed. injection Hallowed as Hallowed.
  rewrite Hf, (string_eqb_false _ _ Hname), Hallowed.
  unfold save. rewrite Hsave. cbn zeta. rewrite commit_photo, Hcommit.
  unfold path_exists. cbn [disk].
  rewrite bool_decide_eq_true_2 by (rewrite lookup_insert_eq; eauto).
  cbn. rewrite delete_insert_eq, lookup_delete_eq. done.
Qed.

Lemma submit_photo_commit_raises_witness :
  let request := photo_request "21ABC1234" (photo "../sun rise.JPG" png_bytes) in
  let w := {| users := []; photos := [];
              disk := {["uploads/sun_rise.JPG" := [x00]]} |} in
  let r := submit_photo env_commit_raises request w in
  response r =
    Json "Error saving submission to database: database is locked" 500
  ∧ disk (world r) !! "uploads/sun_rise.JPG" = None
  ∧ disk (world r) = delete "uploads/sun_rise.JPG" (disk w)
  ∧ session r = new_session
  ∧ users (world r) = []
  ∧ photos (world r) = [].
Proof.
  intros request w.
  apply (submit_photo_commit_raises env_commit_raises request w
           {| filename := "../sun rise.JPG"; stream := png_bytes |}
           "database is locked"); try reflexivity.
  discriminate.
Defined.

(** C10. When a photo submission passes every check and saving the file
    raises, the handler answers 500 at once: nothing is added to the
    session, the tables are unchanged, and the upload directory is left as
    the failed save left it (nothing is deleted). *)
Theorem submit_photo_save_raises (env : Env) (request : Request) (w : World)
    (f : FileStorage) (e : string) (part : option (list byte)) :
  fields_present request PHOTO_FIELDS = true →
  Re.match_ VIT_ID_PATTERN (field request "vitId") = true →
  get (files request) "photoFile" = Some f →
  filename f ≠ "" →
  allowed_file (filename f) = Some true →
  save_outcome env = SaveRaises e part →
  let r := submit_photo env request w in
  response r = Json ("Error saving file: " ++ e) 500
  ∧ users (world r) = users w
  ∧ photos (world r) = photos w
  ∧ session r = new_session
  ∧ disk (world r) =
      match part with
      | None => disk w
      | Some bytes => <[upload_path f := bytes]> (disk w)
      end.
Proof.
  intros Hall Hvit Hf Hname Hallowed Hsave r. subst r.
  rewrite submit_photo_file_checks by done.
  rewrite allowed_file_spec in Hallowed. injection Hallowed as Hallowed.
  rewrite Hf, (string_eqb_false _ _ Hname), Hallowed.
  unfold save. rewrite Hsave. by destruct part.
Qed.

Lemma submit_photo_save_raises_witness :
  let request := photo_request "21ABC1234" (photo "sunrise.png" png_bytes) in
  let r := submit_photo env_save_raises request world_with_alice in
  response r = Json "Error saving file: No space left on device" 500
  ∧ users (world r) = [alice]
  ∧ photos (world r) = []
  ∧ session r = new_session
  ∧ disk (world r) = <["uploads/sunrise.png" := [x89; x50]]> ∅.
Proof.
  intros request.
  apply (submit_photo_save_raises env_save_raises request world_with_alice
           {| filename := "sunrise.png"; stream := png_bytes |}
           "No space left on device" (Some [x89; x50])); try reflexivity.
  discriminate.
Defined.

(** The successful path of [submit_photo]. *)
Lemma submit_photo_stores (env : Env) (request : Request) (w : World)
    (f : FileStorage) :
  fields_present request PHOTO_FIELDS = true →
  Re.match_ VIT_ID_PATTERN (field request "vitId") = true →
  get (files request) "photoFile" = Some f →
  filename f ≠ "" →
  allowed_file (filename f) = Some true →
  save_outcome env = SaveOk →
  commit_error env = None →
  let r := submit_photo env request w in
  response r = Json "Photo submitted successfully!" 201
  ∧ photos (world r) = (photos w ++ [submission_row env request f w])%list
  ∧ disk (world r) = <[upload_path f := stream f]> (disk w)
  ∧ users (world r) = users w
  ∧ session r = new_session.
Proof.
  intros Hall Hvit Hf Hname Hallowed Hsave Hcommit r. subst r.
  rewrite submit_photo_file_checks by done.
  rewrite allowed_file_spec in Hallowed. injection Hallowed as Hallowed.
  rewrite Hf, (string_eqb_false _ _ Hname), Hallowed.
  unfold save. rewrite Hsave. cbn zeta. rewrite commit_photo, Hcommit.
  done.
Qed.

(** C9. Photo submission does not look at the User table: whatever rows
    the table holds, a request that passes the field, ID-format and file
    checks is answered 201 when the save and the commit succeed, and the
    PhotoSubmission table gains the row of the request; the User table is
    returned as it was. *)
Theorem submit_photo_ignores_users (env : Env) (request : Request) (w : World)
    (f : FileStorage) (registered : list User.t) :
  fields_present request PHOTO_FIELDS = true →
  Re.match_ VIT_ID_PATTERN (field request "vitId") = true →
  get (files request) "photoFile" = Some f →
  filename f ≠ "" →
  allowed_file (filename f) = Some true →
  save_outcome env = SaveOk →
  commit_error env = None →
  let r := submit_photo env request
             {| users := registered; photos := photos w; disk := disk w |} in
  response r = Json "Photo submitted successfully!" 201
  ∧ photos (world r) = (photos w ++ [submission_row env request f w])%list
  ∧ PhotoSubmission.vit_id (submission_row env request f w)
    = field request "vitId"
  ∧ disk (world r) = <[upload_path f := stream f]> (disk w)
  ∧ users (world r) = registered.
Proof.
  intros Hall Hvit Hf Hname Hallowed Hsave Hcommit r. subst r.
  destruct (submit_photo_stores env request
              {| users := registered; photos := photos w; disk := disk w |} f
              Hall Hvit Hf Hname Hallowed Hsave Hcommit)
    as (Hr & Hphotos & Hdisk & Husers & _).
  done.
Qed.

Lemma submit_photo_ignores_users_witness :
  let row vit_id := PhotoSubmission.mk (Some 1) "Alice" vit_id "Sunrise" "Nature"
                      None "sunrise.png" (Some 1700000000) in
  (* a submitter who is registered *)
  (let r := submit_photo env_ok
              (photo_request "21ABC1234" (photo "sunrise.png" png_bytes))
              {| users := [alice]; photos := []; disk := ∅ |} in
   response r = Json "Photo submitted successfully!" 201
   ∧ photos (world r) = [row "21ABC1234"]
   ∧ PhotoSubmission.vit_id (row "21ABC1234") = "21ABC1234"
   ∧ disk (world r) = <["uploads/sunrise.png" := png_bytes]> ∅
   ∧ users (world r) = [alice])
  (* a submitter nobody registered *)
  ∧ (let r := submit_photo env_ok
                (photo_request "22XYZ0007" (photo "sunrise.png" png_bytes))
                {| users := [alice]; photos := []; disk := ∅ |} in
     response r = Json "Photo submitted successfully!" 201
     ∧ photos (world r) = [row "22XYZ0007"]
     ∧ PhotoSubmission.vit_id (row "22XYZ0007") = "22XYZ0007"
     ∧ disk (world r) = <["uploads/sunrise.png" := png_bytes]> ∅
     ∧ users (world r) = [alice]).
Proof.
  intros row. split.
  - apply (submit_photo_ignores_users env_ok
             (photo_request "21ABC1234" (photo "sunrise.png" png_bytes))
             empty_world
             {| filename := "sunrise.png"; stream := png_bytes |} [alice]);
      try reflexivity.
    discriminate.
  - apply (submit_photo_ignores_users env_ok
             (photo_request "22XYZ0007" (photo "sunrise.png" png_bytes))
             empty_world
             {| filename := "sunrise.png"; stream := png_bytes |} [alice]);
      try reflexivity.
    discriminate.
Defined.

(** What a 201 from [submit_photo] tells about the request. *)
Lemma submit_photo_201 (env : Env) (request : Request) (w : World) :
  status (response (submit_photo env request w)) = 201 →
  ∃ f, fields_present request PHOTO_FIELDS = true
       ∧ Re.match_ VIT_ID_PATTERN (field request "vitId") = true
       ∧ get (files request) "photoFile" = Some f
       ∧ filename f ≠ ""
       ∧ allowed_file (filename f) = Some true
       ∧ save_outcome env = SaveOk
       ∧ commit_error env = None.
Proof.
  destruct (submit_photo_text_checks env request w)
    as [(Hs & _) | (Hall & Hvit)]; [rewrite Hs; done |].
  rewrite submit_photo_file_checks by done.
  destruct (get (files request) "photoFile") as [f |]; [| done].
  destruct (String.eqb (filename f) "") eqn:Hname; [done |].
  apply String.eqb_neq in Hname.
  destruct (extension_allowed (filename f)) eqn:Hext; [| done].
  unfold save.
  destruct (save_outcome env) as [| e [part |]] eqn:Hsave; [| done | done].
  cbn zeta. rewrite commit_photo.
  destruct (commit_error env) eqn:Hcommit; [done |].
  intros _. exists f. rewrite allowed_file_spec, Hext. done.
Qed.

(** C8. For every accepted photo submission (answered 201) the file is
    saved, and the row's [photo_filename] is set, under the sanitized form
    of the client's filename.  That name is never empty, holds only
    characters of [[A-Za-z0-9_.-]] (so no path separator), and is neither
    [.] nor [..]; the path of the saved file is the upload folder, one
    separator, and that name. *)
Theorem submit_photo_sanitized_name (env : Env) (request : Request) (w : World) :
  let r := submit_photo env request w in
  status (response r) = 201 →
  ∃ f name row,
    get (files request) "photoFile" = Some f
    ∧ name = Werkzeug.secure_filename (filename f)
    ∧ disk (world r) = <[UPLOAD_FOLDER ++ "/" ++ name := stream f]> (disk w)
    ∧ photos (world r) = (photos w ++ [row])%list
    ∧ PhotoSubmission.photo_filename row = name
    ∧ name ≠ "" ∧ name ≠ "." ∧ name ≠ ".."
    ∧ Str.contains "/" name = false
    ∧ (∀ c, Str.contains c name = true → Werkzeug.filename_char c = true).
Proof.
  intros r H201. subst r.
  destruct (submit_photo_201 _ _ _ H201)
    as (f & Hall & Hvit & Hf & Hname & Hallowed & Hsave & Hcommit).
  destruct (SecureFacts.secure_filename_component _ Hallowed)
    as (Hne & Hdot & Hdots & Hslash & Hjoin).
  destruct (submit_photo_stores env request w f
              Hall Hvit Hf Hname Hallowed Hsave Hcommit)
    as (_ & Hphotos & Hdisk & _).
  exists f, (Werkzeug.secure_filename (filename f)), (submission_row env request f w).
  unfold upload_path in Hdisk. rewrite Hjoin in Hdisk.
  repeat split; try done.
  intros c. apply SecureFacts.secure_filename_chars.
Qed.

Lemma submit_photo_sanitized_name_witness :
  let request :=
    photo_request "21ABC1234" (photo "../../etc/cron.d/x.png" png_bytes) in
  let r := submit_photo env_ok request empty_world in
  status (response r) = 201
  ∧ ∃ f name row,
      get (files request) "photoFile" = Some f
      ∧ name = Werkzeug.secure_filename (filename f)
      ∧ disk (world r) = <[UPLOAD_FOLDER ++ "/" ++ name := stream f]> ∅
      ∧ photos (world r) = [row]
      ∧ PhotoSubmission.photo_filename row = name
      ∧ name ≠ "" ∧ name ≠ "." ∧ name ≠ ".."
      ∧ Str.contains "/" name = false
      ∧ (∀ c, Str.contains c name = true → Werkzeug.filename_char c = true).
Proof.
  intros request r. split; [reflexivity |].
  apply (submit_photo_sanitized_name env_ok request empty_world).
  reflexivity.
Defined.

(** C5. For a photo submission whose file has a non-empty filename, the
    file check succeeds exactly when the filename contains a dot and the
    substring after its last dot, lowercased, is png, jpg or jpeg, and it
    never raises.  When it fails the handler answers 400 and leaves the
    upload directory and the tables as they were; with valid text fields,
    the invalid-file-type answer is given exactly in that case. *)
Theorem submit_photo_extension (env : Env) (request : Request) (w : World)
    (f : FileStorage) :
  get (files request) "photoFile" = Some f →
  filename f ≠ "" →
  let r := submit_photo env request w in
  file_check f = Some (extension_allowed (filename f))
  ∧ (extension_allowed (filename f) = false →
     status (response r) = 400 ∧ world r = w)
  ∧ (fields_present request PHOTO_FIELDS = true →
     Re.match_ VIT_ID_PATTERN (field request "vitId") = true →
     (response r = Json "Invalid file type. Only PNG, JPG, JPEG are allowed!" 400
      ↔ extension_allowed (filename f) = false)).
Proof.
  intros Hf Hname r. subst r.
  apply string_eqb_false in Hname.
  split; [| split].
  - unfold file_check, FileStorage_bool. rewrite Hname. apply allowed_file_spec.
  - intros Hext.
    destruct (submit_photo_text_checks env request w)
      as [(Hs & Hw & _) | (Hall & Hvit)]; [done |].
    rewrite submit_photo_file_checks by done.
    by rewrite Hf, Hname, Hext.
  - intros Hall Hvit. rewrite submit_photo_file_checks by done.
    rewrite Hf, Hname.
    destruct (extension_allowed (filename f)); [| done].
    split; [| done].
    destruct (save env f _ w) as [[e | []] w1]; [done |]. cbn zeta.
    destruct (session_commit env _ w1) as [[[e | []] s] w2]; done.
Qed.

Lemma submit_photo_extension_witness :
  let f := {| filename := "photo.gif"; stream := png_bytes |} in
  let r := submit_photo env_ok (photo_request "21ABC1234" (photo "photo.gif" png_bytes))
             world_with_alice in
  extension_allowed "photo.gif" = false
  ∧ file_check f = Some false
  ∧ response r = Json "Invalid file type. Only PNG, JPG, JPEG are allowed!" 400
  ∧ world r = world_with_alice.
Proof.
  intros f r.
  destruct (submit_photo_extension env_ok
              (photo_request "21ABC1234" (photo "photo.gif" png_bytes))
              world_with_alice f) as (Hcheck & Hfail & Hiff);
    [reflexivity | discriminate |].
  split; [reflexivity |]. split; [exact Hcheck |].
  split; [apply Hiff; reflexivity | apply Hfail; reflexivity].
Defined.

(** C6 as stated fails: an attached file of zero bytes whose name is
    allowed is accepted, saved and recorded. *)
Lemma submit_photo_empty_file_accepted :
  let f := {| filename := "sunrise.png"; stream := [] |} in
  let request := photo_request "21ABC1234" [("photoFile", f)] in
  let r := submit_photo env_ok request empty_world in
  fields_present request PHOTO_FIELDS = true
  ∧ is_vit_id (field request "vitId") = true
  ∧ get (files request) "photoFile" = Some f
  ∧ stream f = []
  ∧ status (response r) = 201
  ∧ status (response r) ≠ 400
  ∧ disk (world r) !! "uploads/sunrise.png" = Some []
  ∧ List.length (photos (world r)) = 1%nat.
Proof. vm_compute. repeat split; discriminate. Qed.

(** C6, amended. A photo submission whose four required text fields are
    present and whose vitId passes the format check is answered 400 when
    the file part is missing or the attached file has an empty filename
    (no file was selected); nothing is written and no row is created.
    The content of the file is not examined. *)
Theorem submit_photo_no_file (env : Env) (request : Request) (w : World) :
  fields_present request PHOTO_FIELDS = true →
  Re.match_ VIT_ID_PATTERN (field request "vitId") = true →
  get (files request) "photoFile" = None
  ∨ (∃ f, get (files request) "photoFile" = Some f ∧ filename f = "") →
  let r := submit_photo env request w in
  status (response r) = 400 ∧ world r = w ∧ session r = new_session.
Proof.
  intros Hall Hvit Hfile r. subst r.
  rewrite submit_photo_file_checks by done.
  destruct Hfile as [-> | (f & -> & ->)]; done.
Qed.

Lemma submit_photo_no_file_witness :
  (let r := submit_photo env_ok (photo_request "21ABC1234" []) world_with_alice in
   status (response r) = 400 ∧ world r = world_with_alice
   ∧ session r = new_session)
  ∧ (let r := submit_photo env_ok
                (photo_request "21ABC1234" (photo "" png_bytes)) world_with_alice in
     status (response r) = 400 ∧ world r = world_with_alice
     ∧ session r = new_session).
Proof.
  split.
  - apply (submit_photo_no_file env_ok (photo_request "21ABC1234" [])
             world_with_alice); [reflexivity | reflexivity |].
    left. reflexivity.
  - apply (submit_photo_no_file env_ok
             (photo_request "21ABC1234" (photo "" png_bytes))
             world_with_alice); [reflexivity | reflexivity |].
    right. eexists. split; reflexivity.
Defined.

(** ** The ID-format check *)

(** With the earlier checks passed, each handler gives the invalid-ID
    answer exactly when [re.match] rejects the vitId, that is, when the
    vitId is neither an institutional ID nor one followed by a newline. *)
Lemma invalid_id_answer (env : Env) (request : Request) (w : World) :
  (fields_present request REGISTER_FIELDS = true →
   field request "password" = field request "confirmPassword" →
   (response (register env request w) = Json "Invalid VIT ID format." 400
    ↔ Re.match_ VIT_ID_PATTERN (field request "vitId") = false))
  ∧ (fields_present request PHOTO_FIELDS = true →
     (response (submit_photo env request w) = Json "Invalid VIT ID format." 400
      ↔ Re.match_ VIT_ID_PATTERN (field request "vitId") = false)).
Proof.
  split.
  - intros Hall Hpw.
    destruct (Re.match_ VIT_ID_PATTERN (field request "vitId")) eqn:Hvit.
    + split; [| done]. rewrite register_after_checks by done.
      destruct (_ || _); [done |]. cbn zeta.
      destruct (session_commit _ _ _) as [[[e | []] s] w']; done.
    + split; [done |]. intros _. unfold register.
      change (all _) with (fields_present request REGISTER_FIELDS).
      rewrite Hall. cbn [negb].
      fold (field request "password") (field request "confirmPassword")
           (field request "vitId").
      by rewrite <- Hpw, String.eqb_refl, Hvit.
  - intros Hall.
    destruct (Re.match_ VIT_ID_PATTERN (field request "vitId")) eqn:Hvit.
    + split; [| done]. rewrite submit_photo_file_checks by done.
      destruct (get (files request) "photoFile") as [f |]; [| done].
      destruct (String.eqb (filename f) ""); [done |].
      destruct (extension_allowed (filename f)); [| done].
      destruct (save env f _ w) as [[e | []] w1]; [done |]. cbn zeta.
      destruct (session_commit env _ w1) as [[[e | []] s] w2]; done.
    + split; [done |]. intros _. unfold submit_photo.
      change (all _) with (fields_present request PHOTO_FIELDS).
      rewrite Hall. cbn [negb]. fold (field request "vitId").
      by rewrite Hvit.
Qed.

(** C4 at the input that separates the code from the claim: a vitId made
    of an institutional ID and a trailing newline is not of the form
    "2 digits, 3 uppercase letters, 4 digits and nothing else", yet both
    handlers let it through the format check; [register] stores it and
    [submit_photo] records it. *)
Theorem vit_id_trailing_newline_accepted :
  let vit_id := "21ABC1234" ++ String Str.LF "" in
  let r1 := register env_ok
              (register_request "Alice" vit_id "alice@vit.ac.in" "secret" "secret")
              empty_world in
  let r2 := submit_photo env_ok
              (photo_request vit_id (photo "sunrise.png" png_bytes))
              empty_world in
  is_vit_id vit_id = false
  ∧ Re.match_ VIT_ID_PATTERN vit_id = true
  ∧ response r1 = Json "Registration successful!" 201
  ∧ User.vit_id <$> users (world r1) = [vit_id]
  ∧ response r2 = Json "Photo submitted successfully!" 201
  ∧ PhotoSubmission.vit_id <$> photos (world r2) = [vit_id]
  ∧ is_vit_id "abc123" = false
  ∧ response (register env_ok
                (register_request "Alice" "abc123" "alice@vit.ac.in" "secret" "secret")
                empty_world) = Json "Invalid VIT ID format." 400.
Proof. vm_compute. repeat split. Qed.

(** * Further properties of the handlers *)

(** ** Registration *)

Lemma fields_present_false (request : Request) (keys : list string) (k : string) :
  k ∈ keys → truthy (get (form request) k) = false →
  fields_present request keys = false.
Proof.
  intros Hk Ht. unfold fields_present.
  induction keys as [|k' keys IH]; [by apply elem_of_nil in Hk |].
  simpl. apply elem_of_cons in Hk as [<- | Hk].
  - by rewrite Ht.
  - rewrite (IH Hk). apply andb_false_r.
Qed.

Lemma truthy_false (v : option string) :
  truthy v = false ↔ v = None ∨ v = Some "".
Proof.
  destruct v as [s |]; simpl.
  - destruct (String.eqb s "") eqn:E; simpl.
    + apply String.eqb_eq in E as ->. split; auto.
    + apply String.eqb_neq in E. split; [done |]. intros [? | [= ->]]; done.
  - split; auto.
Qed.

Lemma register_missing (env : Env) (request : Request) (w : World) :
  fields_present request REGISTER_FIELDS = false →
  register env request w = reply "All fields are required!" 400 w new_session.
Proof.
  intros H. unfold register.
  change (all _) with (fields_present request REGISTER_FIELDS).
  by rewrite H.
Qed.

Lemma find_vit_id_none_column (v : string) (us : list User.t) :
  first_by_vit_id v us = None → v ∉ User.vit_id <$> us.
Proof.
  unfold first_by_vit_id. induction us as [|u us IH]; simpl.
  - intros _. apply not_elem_of_nil.
  - destruct (String.eqb (User.vit_id u) v) eqn:E; [done |].
    intros H. apply not_elem_of_cons. split; [| by apply IH].
    apply String.eqb_neq in E. congruence.
Qed.

Lemma find_email_none_column (e : string) (us : list User.t) :
  first_by_email e us = None → e ∉ User.email <$> us.
Proof.
  unfold first_by_email. induction us as [|u us IH]; simpl.
  - intros _. apply not_elem_of_nil.
  - destruct (String.eqb (User.email u) e) eqn:E; [done |].
    intros H. apply not_elem_of_cons. split; [| by apply IH].
    apply String.eqb_neq in E. congruence.
Qed.

(** The row [register] inserts for a request in world [w]. *)
Lemma register_beyond_duplicates (env : Env) (request : Request) (w : World) :
  fields_present request REGISTER_FIELDS = true →
  field request "password" = field request "confirmPassword" →
  Re.match_ VIT_ID_PATTERN (field request "vitId") = true →
  first_by_vit_id (field request "vitId") (users w) = None →
  first_by_email (field request "email") (users w) = None →
  register env request w =
    match commit_error env with
    | Some e => reply ("Error registering user: " ++ e) 500 w new_session
    | None =>
        reply "Registration successful!" 201
          {| users := users w ++
               [User.mk (Some (next_id (User.id <$> users w)))
                  (field request "fullName") (field request "vitId")
                  (field request "email") (field request "password")];
             photos := photos w; disk := disk w |}
          new_session
    end.
Proof.
  intros Hall Hpw Hvit Hv He.
  rewrite register_after_checks by done.
  rewrite Hv, He.
  rewrite !bool_decide_eq_false_2 by (intros [? ?]; done).
  cbn [orb]. unfold session_commit, session_add. cbn [pending new_session app].
  rewrite flush_new_user
    by (by apply find_vit_id_none_column || by apply find_email_none_column).
  by destruct (commit_error env).
Qed.

(** Every way [register] can end. *)
Lemma register_outcomes (env : Env) (request : Request) (w : World) :
  let r := register env request w in
  (status (response r) = 400 ∧ world r = w ∧ session r = new_session)
  ∨ (response r = Json "User with this VIT ID or Email already exists!" 409
     ∧ world r = w ∧ session r = new_session)
  ∨ (fields_present request REGISTER_FIELDS = true
     ∧ field request "password" = field request "confirmPassword"
     ∧ Re.match_ VIT_ID_PATTERN (field request "vitId") = true
     ∧ first_by_vit_id (field request "vitId") (users w) = None
     ∧ first_by_email (field request "email") (users w) = None).
Proof.
  intros r. subst r.
  destruct (register_4xx_or_beyond env request w)
    as [H | (Hall & Hpw & Hvit)]; [by left |].
  rewrite register_after_checks by done.
  destruct (first_by_vit_id _ _) as [u |] eqn:Hv.
  { right. left. rewrite bool_decide_eq_true_2 by eauto. done. }
  destruct (first_by_email _ _) as [u |] eqn:He.
  { right. left. rewrite (bool_decide_eq_true_2 (is_Some (Some u))) by eauto.
    rewrite orb_true_r. done. }
  right. right. done.
Qed.

(** X1. A registration request in which one of the five fields is missing
    or empty is answered 400 "All fields are required!" and nothing is
    stored, whatever the other fields hold. *)
Theorem register_missing_field (env : Env) (request : Request) (w : World)
    (k : string) :
  k ∈ REGISTER_FIELDS →
  get (form request) k = None ∨ get (form request) k = Some "" →
  let r := register env request w in
  response r = Json "All fields are required!" 400
  ∧ world r = w ∧ session r = new_session.
Proof.
  intros Hk Hmiss r. subst r.
  rewrite register_missing; [done |].
  apply (fields_present_false _ _ k Hk). by apply truthy_false.
Qed.

Lemma register_missing_field_witness :
  let request := {| form := [("fullName", "Bob"); ("vitId", "22XYZ0007");
                             ("email", ""); ("password", "pw");
                             ("confirmPassword", "pw")];
                    files := [] |} in
  let r := register env_ok request world_with_alice in
  response r = Json "All fields are required!" 400
  ∧ world r = world_with_alice ∧ session r = new_session.
Proof.
  intros request.
  apply (register_missing_field env_ok request world_with_alice "email").
  - unfold REGISTER_FIELDS. set_solver.
  - right. reflexivity.
Defined.



(** X4. [register] never touches the PhotoSubmission table or the upload
    directory.  It changes the User table only when it answers 201, and
    then by appending one row after the rows already stored; with any
    other answer the world is exactly as before. *)
Theorem register_frame (env : Env) (request : Request) (w : World) :
  let r := register env request w in
  photos (world r) = photos w
  ∧ disk (world r) = disk w
  ∧ (status (response r) ≠ 201 → world r = w)
  ∧ (status (response r) = 201 →
     ∃ row, users (world r) = (users w ++ [row])%list).
Proof.
  intros r. subst r.
  destruct (register_outcomes env request w)
    as [(Hs & Hw & _) | [(Hr & Hw & _) | (Hall & Hpw & Hvit & Hv & He)]].
  - rewrite Hw. repeat split; try done. rewrite Hs. done.
  - rewrite Hw, Hr. repeat split; done.
  - rewrite register_beyond_duplicates by done.
    destruct (commit_error env) as [e |]; cbn; repeat split; try done; eauto.
Qed.

Lemma register_frame_witness :
  let r := register env_ok
             (register_request "Bob" "22XYZ0007" "bob@vit.ac.in" "pw" "pw")
             world_with_alice in
  let r' := register env_commit_raises
              (register_request "Bob" "22XYZ0007" "bob@vit.ac.in" "pw" "pw")
              world_with_alice in
  status (response r) = 201
  ∧ photos (world r) = []
  ∧ disk (world r) = ∅
  ∧ (∃ row, users (world r) = [alice; row])
  ∧ status (response r') ≠ 201
  ∧ world r' = world_with_alice.
Proof.
  intros r r'.
  destruct (register_frame env_ok
              (register_request "Bob" "22XYZ0007" "bob@vit.ac.in" "pw" "pw")
              world_with_alice) as (Hp & Hd & _ & Hrow).
  destruct (register_frame env_commit_raises
              (register_request "Bob" "22XYZ0007" "bob@vit.ac.in" "pw" "pw")
              world_with_alice) as (_ & _ & Hsame & _).
  split; [reflexivity |]. split; [exact Hp |]. split; [exact Hd |].
  split; [apply Hrow; reflexivity |].
  split; [discriminate | apply Hsame; discriminate].
Defined.

(** ** Photo submission *)

Lemma submit_photo_missing (env : Env) (request : Request) (w : World) :
  fields_present request PHOTO_FIELDS = false →
  submit_photo env request w = reply "Required fields are missing!" 400 w new_session.
Proof.
  intros H. unfold submit_photo.
  change (all _) with (fields_present request PHOTO_FIELDS).
  by rewrite H.
Qed.

(** The whole course of [submit_photo] once the request has passed its
    checks, by what the storage layer does. *)
Lemma submit_photo_valid_run (env : Env) (request : Request) (w : World)
    (f : FileStorage) :
  fields_present request PHOTO_FIELDS = true →
  Re.match_ VIT_ID_PATTERN (field request "vitId") = true →
  get (files request) "photoFile" = Some f →
  filename f ≠ "" →
  extension_allowed (filename f) = true →
  submit_photo env request w =
    match save_outcome env with
    | SaveRaises e None => reply ("Error saving file: " ++ e) 500 w new_session
    | SaveRaises e (Some part) =>
        reply ("Error saving file: " ++ e) 500
          {| users := users w; photos := photos w;
             disk := <[upload_path f := part]> (disk w) |} new_session
    | SaveOk =>
        match commit_error env with
        | Some e =>
            reply ("Error saving submission to database: " ++ e) 500
              {| users := users w; photos := photos w;
                 disk := delete (upload_path f) (disk w) |} new_session
        | None =>
            reply "Photo submitted successfully!" 201
              {| users := users w;
                 photos := photos w ++ [submission_row env request f w];
                 disk := <[upload_path f := stream f]> (disk w) |} new_session
        end
    end.
Proof.
  intros Hall Hvit Hf Hname Hext.
  rewrite submit_photo_file_checks by done.
  rewrite Hf, (string_eqb_false _ _ Hname), Hext.
  unfold save. destruct (save_outcome env) as [| e [part |]]; [| done | done].
  cbn zeta. rewrite commit_photo.
  destruct (commit_error env) as [e |]; [| done].
  unfold path_exists. cbn [disk].
  rewrite bool_decide_eq_true_2 by (rewrite lookup_insert_eq; eauto).
  unfold remove, session_rollback. cbn. by rewrite delete_insert_eq.
Qed.

(** A request is either turned away with a 400 that changes nothing, or it
    carries a file that passed every check. *)
Lemma submit_photo_400_or_valid (env : Env) (request : Request) (w : World) :
  (∃ m, submit_photo env request w = reply m 400 w new_session)
  ∨ (∃ f, fields_present request PHOTO_FIELDS = true
          ∧ Re.match_ VIT_ID_PATTERN (field request "vitId") = true
          ∧ get (files request) "photoFile" = Some f
          ∧ filename f ≠ ""
          ∧ extension_allowed (filename f) = true).
Proof.
  destruct (fields_present request PHOTO_FIELDS) eqn:Hall;
    [| left; eexists; by apply submit_photo_missing].
  destruct (Re.match_ VIT_ID_PATTERN (field request "vitId")) eqn:Hvit.
  - rewrite submit_photo_file_checks by done.
    destruct (get (files request) "photoFile") as [f |]; [| left; eauto].
    destruct (String.eqb (filename f) "") eqn:Hname; [left; eauto |].
    apply String.eqb_neq in Hname.
    destruct (extension_allowed (filename f)) eqn:Hext; [| left; eauto].
    right. exists f. done.
  - left. eexists. unfold submit_photo.
    change (all _) with (fields_present request PHOTO_FIELDS).
    rewrite Hall. cbn [negb]. fold (field request "vitId").
    rewrite Hvit. reflexivity.
Qed.

Lemma upload_path_inside (f : FileStorage) :
  extension_allowed (filename f) = true →
  upload_path f = UPLOAD_FOLDER ++ "/" ++ Werkzeug.secure_filename (filename f).
Proof.
  intros Hext. unfold upload_path.
  apply SecureFacts.secure_filename_component.
  by rewrite allowed_file_spec, Hext.
Qed.

(** X5. A photo submission in which one of the four required fields is
    missing or empty is answered 400 "Required fields are missing!",
    whatever file it carries; no file is written and no row is created. *)
Theorem submit_photo_missing_field (env : Env) (request : Request) (w : World)
    (k : string) :
  k ∈ PHOTO_FIELDS →
  get (form request) k = None ∨ get (form request) k = Some "" →
  let r := submit_photo env request w in
  response r = Json "Required fields are missing!" 400
  ∧ world r = w ∧ session r = new_session.
Proof.
  intros Hk Hmiss r. subst r.
  rewrite submit_photo_missing; [done |].
  apply (fields_present_false _ _ k Hk). by apply truthy_false.
Qed.

Lemma submit_photo_missing_field_witness :
  let request := {| form := [("fullName", "Alice"); ("vitId", "21ABC1234");
                             ("photoTitle", "Sunrise")];
                    files := photo "sunrise.png" png_bytes |} in
  let r := submit_photo env_ok request world_with_alice in
  response r = Json "Required fields are missing!" 400
  ∧ world r = world_with_alice ∧ session r = new_session.
Proof.
  intros request.
  apply (submit_photo_missing_field env_ok request world_with_alice "theme").
  - unfold PHOTO_FIELDS. set_solver.
  - left. reflexivity.
Defined.

(** X6. [allowed_file] returns a truth value for every filename: the
    subscript on the split never raises.  [submit_photo] never changes the
    User table; a 400 changes nothing at all; the PhotoSubmission table
    changes only with a 201, and then by one row appended after the rows
    already stored. *)
Theorem submit_photo_frame (env : Env) (request : Request) (w : World)
    (name : string) :
  let r := submit_photo env request w in
  (∃ b, allowed_file name = Some b)
  ∧ users (world r) = users w
  ∧ (status (response r) = 400 → world r = w)
  ∧ (status (response r) ≠ 201 → photos (world r) = photos w)
  ∧ (status (response r) = 201 →
     ∃ row, photos (world r) = (photos w ++ [row])%list).
Proof.
  intros r. subst r. split; [rewrite allowed_file_spec; eauto |].
  destruct (submit_photo_400_or_valid env request w)
    as [(m & ->) | (f & Hall & Hvit & Hf & Hname & Hext)].
  - cbn. repeat split; done.
  - rewrite (submit_photo_valid_run env request w f) by done.
    destruct (save_outcome env) as [| e [part |]];
      [destruct (commit_error env) as [e |] | |]; cbn;
      repeat split; try done; eauto.
Qed.

Lemma submit_photo_frame_witness :
  let request := photo_request "21ABC1234" (photo "sunrise.png" png_bytes) in
  let r := submit_photo env_ok request world_with_alice in
  let r' := submit_photo env_commit_raises request world_with_alice in
  let r'' := submit_photo env_ok (photo_request "21ABC1234" []) world_with_alice in
  (∃ b, allowed_file "no_extension" = Some b)
  ∧ status (response r) = 201
  ∧ users (world r) = [alice]
  ∧ (∃ row, photos (world r) = [row])
  ∧ status (response r') ≠ 201
  ∧ photos (world r') = []
  ∧ status (response r'') = 400
  ∧ world r'' = world_with_alice.
Proof.
  intros request r r' r''.
  destruct (submit_photo_frame env_ok request world_with_alice "no_extension")
    as (Hb & Hu & _ & _ & Hrow).
  destruct (submit_photo_frame env_commit_raises request world_with_alice "")
    as (_ & _ & _ & Hkeep & _).
  destruct (submit_photo_frame env_ok (photo_request "21ABC1234" [])
              world_with_alice "") as (_ & _ & H400 & _).
  split; [exact Hb |]. split; [reflexivity |]. split; [exact Hu |].
  split; [apply Hrow; reflexivity |].
  split; [discriminate |]. split; [apply Hkeep; discriminate |].
  split; [reflexivity | apply H400; reflexivity].
Defined.

(** X7. Whatever the request and whatever the storage layer does,
    [submit_photo] writes and deletes at one path at most: a path whose
    content differs afterwards is the upload folder, one separator, and
    the sanitized name of the request's file, and that file had passed
    the extension check.  Every other file is left as it was. *)
Theorem submit_photo_disk_confined (env : Env) (request : Request) (w : World)
    (path : string) :
  disk (world (submit_photo env request w)) !! path ≠ disk w !! path →
  ∃ f, get (files request) "photoFile" = Some f
       ∧ allowed_file (filename f) = Some true
       ∧ path = UPLOAD_FOLDER ++ "/" ++ Werkzeug.secure_filename (filename f)
       ∧ Str.contains "/" (Werkzeug.secure_filename (filename f)) = false.
Proof.
  destruct (submit_photo_400_or_valid env request w)
    as [(m & ->) | (f & Hall & Hvit & Hf & Hname & Hext)]; [done |].
  rewrite (submit_photo_valid_run env request w f) by done.
  assert (allowed_file (filename f) = Some true) as Hallowed
    by by rewrite allowed_file_spec, Hext.
  intros Hdiff. exists f. split; [done |]. split; [done |].
  split; [| by apply SecureFacts.secure_filename_component].
  rewrite <- upload_path_inside by done.
  destruct (decide (upload_path f = path)) as [-> | Hne]; [done |].
  exfalso. apply Hdiff.
  destruct (save_outcome env) as [| e [part |]];
    [destruct (commit_error env) as [e |] | |]; cbn;
    by rewrite ?lookup_insert_ne, ?lookup_delete_ne by done.
Qed.

Lemma submit_photo_disk_confined_witness :
  let request := photo_request "21ABC1234" (photo "/etc/../passwd.png" png_bytes) in
  ∃ f, get (files request) "photoFile" = Some f
       ∧ allowed_file (filename f) = Some true
       ∧ "uploads/etc_.._passwd.png"
         = UPLOAD_FOLDER ++ "/" ++ Werkzeug.secure_filename (filename f)
       ∧ Str.contains "/" (Werkzeug.secure_filename (filename f)) = false.
Proof.
  intros request.
  apply (submit_photo_disk_confined env_ok request empty_world
           "uploads/etc_.._passwd.png").
  vm_compute. discriminate.
Defined.

Lemma passes_checks_run (env : Env) (request : Request) (w : World)
    (f : FileStorage) :
  passes_checks request f →
  submit_photo env request w =
    match save_outcome env with
    | SaveRaises e None => reply ("Error saving file: " ++ e) 500 w new_session
    | SaveRaises e (Some part) =>
        reply ("Error saving file: " ++ e) 500
          {| users := users w; photos := photos w;
             disk := <[upload_path f := part]> (disk w) |} new_session
    | SaveOk =>
        match commit_error env with
        | Some e =>
            reply ("Error saving submission to database: " ++ e) 500
              {| users := users w; photos := photos w;
                 disk := delete (upload_path f) (disk w) |} new_session
        | None =>
            reply "Photo submitted successfully!" 201
              {| users := users w;
                 photos := photos w ++ [submission_row env request f w];
                 disk := <[upload_path f := stream f]> (disk w) |} new_session
        end
    end.
Proof.
  intros (Hall & Hvit & Hf & Hname & Hallowed).
  apply submit_photo_valid_run; try done.
  rewrite allowed_file_spec in Hallowed. by injection Hallowed.
Qed.

Lemma passes_checks_sample (vit_id name : string) (content : list byte) :
  Re.match_ VIT_ID_PATTERN vit_id = true →
  name ≠ "" →
  allowed_file name = Some true →
  passes_checks (photo_request vit_id (photo name content))
    {| filename := name; stream := content |}.
Proof.
  intros Hvit Hname Hallowed.
  destruct vit_id as [|c v]; [discriminate Hvit |].
  repeat split; done.
Qed.

(** X8. With the earlier checks passed, each handler gives the 400
    "Invalid VIT ID format." answer exactly when the vitId is neither
    2 digits, 3 uppercase letters and 4 digits, nor such an ID followed
    by one newline. *)
Theorem id_format_check (env : Env) (request : Request) (w : World) :
  let well_formed v :=
    is_vit_id v = true
    ∨ ∃ s0, is_vit_id s0 = true ∧ v = s0 ++ String Str.LF "" in
  (fields_present request REGISTER_FIELDS = true →
   field request "password" = field request "confirmPassword" →
   (response (register env request w) = Json "Invalid VIT ID format." 400
    ↔ ¬ well_formed (field request "vitId")))
  ∧ (fields_present request PHOTO_FIELDS = true →
     (response (submit_photo env request w) = Json "Invalid VIT ID format." 400
      ↔ ¬ well_formed (field request "vitId"))).
Proof.
  intros well_formed.
  assert (∀ v, Re.match_ VIT_ID_PATTERN v = false ↔ ¬ well_formed v) as Hm.
  { intros v. unfold well_formed. rewrite <- pattern_accepts_iff.
    destruct (Re.match_ VIT_ID_PATTERN v); split; done. }
  destruct (invalid_id_answer env request w) as [Hreg Hphoto].
  split.
  - intros Hall Hpw. rewrite (Hreg Hall Hpw). apply Hm.
  - intros Hall. rewrite (Hphoto Hall). apply Hm.
Qed.

Lemma id_format_check_witness :
  response (register env_ok
              (register_request "Bob" "22xyz0007" "bob@vit.ac.in" "pw" "pw")
              world_with_alice)
  = Json "Invalid VIT ID format." 400
  ∧ response (submit_photo env_ok
                (photo_request "2ABC12345" (photo "sunrise.png" png_bytes))
                world_with_alice)
    = Json "Invalid VIT ID format." 400.
Proof.
  split.
  - apply (id_format_check env_ok
             (register_request "Bob" "22xyz0007" "bob@vit.ac.in" "pw" "pw")
             world_with_alice); try reflexivity.
    rewrite <- pattern_accepts_iff. vm_compute. discriminate.
  - apply (id_format_check env_ok
             (photo_request "2ABC12345" (photo "sunrise.png" png_bytes))
             world_with_alice); try reflexivity.
    rewrite <- pattern_accepts_iff. vm_compute. discriminate.
Defined.

(** X9. [allowed_file] looks at the last extension only and ignores its
    case: a name without a dot is refused, and a name [stem.ext] whose
    [ext] holds no dot is allowed exactly when [ext], lowercased, is png,
    jpg or jpeg, whatever [stem] is (empty, or itself ending in another
    extension). *)
Theorem allowed_file_last_extension (stem ext : string) :
  (Str.contains "." stem = false → allowed_file stem = Some false)
  ∧ (Str.contains "." ext = false →
     allowed_file (stem ++ "." ++ ext)
     = Some (bool_decide (Str.lower ext ∈ ALLOWED_EXTENSIONS))).
Proof.
  split.
  - intros H. unfold allowed_file. by rewrite H.
  - intros H. unfold allowed_file.
    change ("." ++ ext) with (String "." ext).
    rewrite StrFacts.contains_app. simpl. rewrite orb_true_r.
    rewrite SplitFacts.rsplit1_second
      by (rewrite StrFacts.contains_app; simpl; apply orb_true_r).
    by rewrite SplitFacts.after_last_app.
Qed.

Lemma allowed_file_last_extension_witness :
  allowed_file "README" = Some false
  ∧ allowed_file "holiday.png.exe" = Some false
  ∧ allowed_file "holiday.exe.JPeG" = Some true.
Proof.
  split; [| split].
  - apply (allowed_file_last_extension "README" ""). reflexivity.
  - apply (allowed_file_last_extension "holiday.png" "exe"). reflexivity.
  - apply (allowed_file_last_extension "holiday.exe" "JPeG"). reflexivity.
Defined.

(** X10. Files are stored under the sanitized name only: when two accepted
    submissions have filenames with the same sanitized form, the second
    overwrites the file of the first.  Both rows stay in the table with
    the same [photo_filename], and the one file left holds the bytes of
    the second submission. *)
Theorem submit_photo_same_name_overwrites (env1 env2 : Env)
    (request1 request2 : Request) (w : World) (f1 f2 : FileStorage) :
  passes_checks request1 f1 →
  passes_checks request2 f2 →
  Werkzeug.secure_filename (filename f1) = Werkzeug.secure_filename (filename f2) →
  save_outcome env1 = SaveOk → commit_error env1 = None →
  save_outcome env2 = SaveOk → commit_error env2 = None →
  let r1 := submit_photo env1 request1 w in
  let r2 := submit_photo env2 request2 (world r1) in
  status (response r1) = 201 ∧ status (response r2) = 201
  ∧ ∃ row1 row2,
      photos (world r2) = (photos w ++ [row1; row2])%list
      ∧ PhotoSubmission.photo_filename row1 = PhotoSubmission.photo_filename row2
      ∧ disk (world r2)
        = <[UPLOAD_FOLDER ++ "/" ++ PhotoSubmission.photo_filename row1
            := stream f2]> (disk w).
Proof.
  intros H1 H2 Hsame Hs1 Hc1 Hs2 Hc2 r1 r2. subst r1 r2.
  rewrite (passes_checks_run env1 request1 w f1 H1), Hs1, Hc1.
  cbn [world reply].
  rewrite (passes_checks_run env2 request2 _ f2 H2), Hs2, Hc2.
  cbn. split; [done |]. split; [done |].
  eexists _, _. split; [by rewrite <- List.app_assoc |].
  cbn. split; [done |].
  assert (upload_path f2 = upload_path f1) as -> by (unfold upload_path; by rewrite Hsame).
  rewrite insert_insert_eq. f_equal.
  apply upload_path_inside.
  destruct H1 as (_ & _ & _ & _ & Hallowed).
  rewrite allowed_file_spec in Hallowed. by injection Hallowed.
Qed.

Lemma submit_photo_same_name_overwrites_witness :
  let r1 := submit_photo env_ok
              (photo_request "21ABC1234" (photo "my photo.png" png_bytes))
              empty_world in
  let r2 := submit_photo env_ok
              (photo_request "22XYZ0007" (photo "../my_photo.png" [x00]))
              (world r1) in
  status (response r1) = 201 ∧ status (response r2) = 201
  ∧ ∃ row1 row2,
      photos (world r2) = [row1; row2]
      ∧ PhotoSubmission.photo_filename row1 = PhotoSubmission.photo_filename row2
      ∧ disk (world r2)
        = <[UPLOAD_FOLDER ++ "/" ++ PhotoSubmission.photo_filename row1
            := [x00]]> ∅.
Proof.
  apply (submit_photo_same_name_overwrites env_ok env_ok
           (photo_request "21ABC1234" (photo "my photo.png" png_bytes))
           (photo_request "22XYZ0007" (photo "../my_photo.png" [x00]))
           empty_world
           {| filename := "my photo.png"; stream := png_bytes |}
           {| filename := "../my_photo.png"; stream := [x00] |});
    try reflexivity;
    apply passes_checks_sample; (reflexivity || discriminate).
Defined.

(** X11. The compensation after a failed commit removes whatever lies at
    the upload path, also a file stored by an earlier submission under the
    same sanitized name: that earlier row stays in the table while the
    file it names is gone. *)
Theorem submit_photo_compensation_orphans (env : Env) (request : Request)
    (w : World) (f : FileStorage) (earlier : PhotoSubmission.t) (e : string) :
  passes_checks request f →
  earlier ∈ photos w →
  PhotoSubmission.photo_filename earlier = Werkzeug.secure_filename (filename f) →
  save_outcome env = SaveOk →
  commit_error env = Some e →
  let r := submit_photo env request w in
  status (response r) = 500
  ∧ earlier ∈ photos (world r)
  ∧ disk (world r)
      !! (UPLOAD_FOLDER ++ "/" ++ PhotoSubmission.photo_filename earlier)
    = None.
Proof.
  intros Hp Hin Hname Hsave Hcommit r. subst r.
  rewrite (passes_checks_run env request w f Hp), Hsave, Hcommit.
  cbn. split; [done |]. split; [done |].
  rewrite Hname, <- upload_path_inside.
  - apply lookup_delete_eq.
  - destruct Hp as (_ & _ & _ & _ & Hallowed).
    rewrite allowed_file_spec in Hallowed. by injection Hallowed.
Qed.

Lemma submit_photo_compensation_orphans_witness :
  let earlier := PhotoSubmission.mk (Some 1) "Alice" "21ABC1234" "Sunrise"
                   "Nature" None "sunrise.png" (Some 1690000000) in
  let w := {| users := [alice]; photos := [earlier];
              disk := {["uploads/sunrise.png" := png_bytes]} |} in
  let r := submit_photo env_commit_raises
             (photo_request "22XYZ0007" (photo "sunrise.png" [x00])) w in
  disk w !! "uploads/sunrise.png" = Some png_bytes
  ∧ status (response r) = 500
  ∧ earlier ∈ photos (world r)
  ∧ disk (world r) !! "uploads/sunrise.png" = None.
Proof.
  intros earlier w. split; [reflexivity |].
  apply (submit_photo_compensation_orphans env_commit_raises
           (photo_request "22XYZ0007" (photo "sunrise.png" [x00])) w
           {| filename := "sunrise.png"; stream := [x00] |} earlier
           "database is locked"); try reflexivity.
  - apply passes_checks_sample; (reflexivity || discriminate).
  - apply list_elem_of_here.
Defined.

(** X12. A submission that failed with a 500, whether the save or the
    commit raised, can be sent again: in an environment where both work,
    the retry in the world the failure left behind gives exactly the
    answer and the world that the first attempt would have given there. *)
Theorem submit_photo_retry (env env' : Env) (request : Request) (w : World)
    (f : FileStorage) :
  passes_checks request f →
  status (response (submit_photo env request w)) = 500 →
  save_outcome env' = SaveOk →
  commit_error env' = None →
  submit_photo env' request (world (submit_photo env request w))
  = submit_photo env' request w
  ∧ status (response (submit_photo env' request w)) = 201.
Proof.
  intros Hp H500 Hsave Hcommit.
  rewrite !(passes_checks_run env' request _ f Hp), Hsave, Hcommit.
  split; [| done].
  revert H500. rewrite (passes_checks_run env request w f Hp).
  destruct (save_outcome env) as [| e [part |]];
    [destruct (commit_error env) as [e |] | |]; cbn; try done; intros _.
  - by rewrite insert_delete_eq.
  - by rewrite insert_insert_eq.
Qed.

Lemma submit_photo_retry_witness :
  let request := photo_request "21ABC1234" (photo "sunrise.png" png_bytes) in
  (submit_photo env_ok request
     (world (submit_photo env_save_raises request world_with_alice))
   = submit_photo env_ok request world_with_alice
   ∧ status (response (submit_photo env_ok request world_with_alice)) = 201)
  ∧ (submit_photo env_ok request
       (world (submit_photo env_commit_raises request world_with_alice))
     = submit_photo env_ok request world_with_alice
     ∧ status (response (submit_photo env_ok request world_with_alice)) = 201).
Proof.
  intros request. split.
  - apply (submit_photo_retry env_save_raises env_ok request world_with_alice
             {| filename := "sunrise.png"; stream := png_bytes |});
      try reflexivity.
    apply passes_checks_sample; (reflexivity || discriminate).
  - apply (submit_photo_retry env_commit_raises env_ok request world_with_alice
             {| filename := "sunrise.png"; stream := png_bytes |});
      try reflexivity.
    apply passes_checks_sample; (reflexivity || discriminate).
Defined.

(** ** What the stored rows always satisfy *)

Lemma present_nonempty (request : Request) (keys : list string) (k : string) :
  fields_present request keys = true → k ∈ keys →
  nonempty (field request k) = true.
Proof.
  unfold fields_present. intros H Hk.
  induction keys as [|k' keys IH]; [by apply elem_of_nil in Hk |].
  simpl in H. apply andb_true_iff in H as [Hk' H].
  apply elem_of_cons in Hk as [-> | Hk]; [| by apply IH].
  unfold field, nonempty. by destruct (get (form request) k').
Qed.

(** X13. Every row of the User table that [register] writes is keyed, has
    a non-empty full name, email and password, and carries a vitId that
    passed the format check: if all stored rows are so before a request,
    they are so after it, under either handler. *)
Theorem user_rows_stay_ok (env : Env) (request : Request) (w : World) :
  forallb user_row_ok (users w) = true →
  forallb user_row_ok (users (world (register env request w))) = true
  ∧ forallb user_row_ok (users (world (submit_photo env request w))) = true.
Proof.
  intros Hok. split; [| by rewrite submit_photo_users].
  destruct (register_outcomes env request w)
    as [(_ & -> & _) | [(_ & -> & _) | (Hall & Hpw & Hvit & Hv & He)]];
    [done | done |].
  rewrite register_beyond_duplicates by done.
  destruct (commit_error env); [done |]. cbn [world reply users].
  rewrite List.forallb_app, Hok. cbn [forallb andb].
  unfold user_row_ok. cbn [User.id User.full_name User.vit_id User.email User.password].
  rewrite Hvit.
  rewrite !(present_nonempty request REGISTER_FIELDS)
    by (done || (unfold REGISTER_FIELDS; set_solver)).
  rewrite bool_decide_eq_true_2 by eauto. done.
Qed.

Lemma user_rows_stay_ok_witness :
  let request := register_request "Bob" "22XYZ0007" "bob@vit.ac.in" "pw" "pw" in
  forallb user_row_ok (users (world (register env_ok request world_with_alice)))
  = true
  ∧ forallb user_row_ok
      (users (world (submit_photo env_ok request world_with_alice))) = true.
Proof.
  intros request.
  apply (user_rows_stay_ok env_ok request world_with_alice). reflexivity.
Defined.

(** X14. Every row of the PhotoSubmission table that [submit_photo] writes
    is keyed and stamped, has a non-empty full name, title and theme,
    carries a vitId that passed the format check, and names a file by a
    non-empty name without a path separator: if all stored rows are so
    before a request, they are so after it, under either handler. *)
Theorem photo_rows_stay_ok (env : Env) (request : Request) (w : World) :
  forallb photo_row_ok (photos w) = true →
  forallb photo_row_ok (photos (world (submit_photo env request w))) = true
  ∧ forallb photo_row_ok (photos (world (register env request w))) = true.
Proof.
  intros Hok. split.
  - destruct (submit_photo_400_or_valid env request w)
      as [(m & ->) | (f & Hall & Hvit & Hf & Hname & Hext)]; [done |].
    rewrite (submit_photo_valid_run env request w f) by done.
    destruct (save_outcome env) as [| e [part |]];
      [destruct (commit_error env) as [e |] | |]; cbn [world reply photos];
      try done.
    rewrite List.forallb_app, Hok. cbn [forallb andb].
    unfold photo_row_ok, submission_row.
    cbn [PhotoSubmission.id PhotoSubmission.timestamp PhotoSubmission.full_name
         PhotoSubmission.vit_id PhotoSubmission.photo_title
         PhotoSubmission.theme PhotoSubmission.photo_filename].
    rewrite Hvit.
    rewrite !(present_nonempty request PHOTO_FIELDS)
      by (done || (unfold PHOTO_FIELDS; set_solver)).
    rewrite !bool_decide_eq_true_2 by eauto.
    assert (allowed_file (filename f) = Some true) as Hallowed
      by by rewrite allowed_file_spec, Hext.
    destruct (SecureFacts.secure_filename_component _ Hallowed)
      as (Hne & _ & _ & Hslash & _).
    rewrite Hslash. unfold nonempty.
    by rewrite (string_eqb_false _ _ Hne).
  - destruct (register_outcomes env request w)
      as [(_ & -> & _) | [(_ & -> & _) | (Hall & Hpw & Hvit & Hv & He)]];
      [done | done |].
    rewrite register_beyond_duplicates by done.
    by destruct (commit_error env).
Qed.

Lemma photo_rows_stay_ok_witness :
  let request := photo_request "21ABC1234" (photo "../a b/c d.JPG" png_bytes) in
  forallb photo_row_ok (photos (world (submit_photo env_ok request empty_world)))
  = true
  ∧ forallb photo_row_ok (photos (world (register env_ok request empty_world)))
    = true.
Proof.
  intros request.
  apply (photo_rows_stay_ok env_ok request empty_world). reflexivity.
Defined.

(** ** The sanitized name and the extension check *)

Module KeepExtension.
Import Str StrFacts SplitFacts Werkzeug.

(** Every stage of [secure_filename] leaves an ASCII letter or digit
    alone. *)
Lemma alnum_survives c :
  alnum c = true →
  nfkd_ascii c = String c ""
  ∧ (if Ascii.eqb c "/" then " "%char else c) = c
  ∧ isspace c = false
  ∧ filename_char c = true
  ∧ contains c "._" = false.
Proof.
  each_char c; intros H; vm_compute in H; try discriminate H;
    vm_compute; repeat split; reflexivity.
Qed.

Lemma letter_alnum c : letter c = true → alnum c = true.
Proof. unfold letter, alnum. intros ->. reflexivity. Qed.

Lemma dot_survives :
  nfkd_ascii "." = "."
  ∧ (if Ascii.eqb "." "/" then " "%char else "."%char) = "."%char
  ∧ isspace "." = false
  ∧ filename_char "." = true.
Proof. repeat split. Qed.

Lemma flat_map_app (f : ascii → string) (a b : string) :
  flat_map f (a ++ b) = flat_map f a ++ flat_map f b.
Proof.
  induction a as [|x a IH]; [done |].
  rewrite app_cons. simpl. by rewrite IH, app_assoc.
Qed.

Lemma flat_map_fixed (f : ascii → string) (s : string) :
  (∀ c, contains c s = true → f c = String c "") → flat_map f s = s.
Proof.
  induction s as [|x s IH]; intros H; [done |]. simpl.
  rewrite (H x) by (simpl; by rewrite Ascii.eqb_refl).
  rewrite app_cons, app_nil, IH; [done |].
  intros c Hc. apply H. simpl. rewrite Hc. apply orb_true_r.
Qed.

Lemma map_app (f : ascii → ascii) (a b : string) :
  map f (a ++ b) = map f a ++ map f b.
Proof.
  induction a as [|x a IH]; [done |].
  rewrite app_cons. simpl. by rewrite IH.
Qed.

Lemma map_fixed (f : ascii → ascii) (s : string) :
  (∀ c, contains c s = true → f c = c) → map f s = s.
Proof.
  induction s as [|x s IH]; intros H; [done |]. simpl.
  rewrite (H x) by (simpl; by rewrite Ascii.eqb_refl).
  rewrite IH; [done |].
  intros c Hc. apply H. simpl. rewrite Hc. apply orb_true_r.
Qed.

Lemma filter_app (p : ascii → bool) (a b : string) :
  filter p (a ++ b) = filter p a ++ filter p b.
Proof.
  induction a as [|x a IH]; [done |].
  rewrite app_cons. simpl. rewrite IH. by destruct (p x).
Qed.

Lemma filter_fixed (p : ascii → bool) (s : string) :
  (∀ c, contains c s = true → p c = true) → filter p s = s.
Proof.
  induction s as [|x s IH]; intros H; [done |]. simpl.
  rewrite (H x) by (simpl; by rewrite Ascii.eqb_refl).
  rewrite IH; [done |].
  intros c Hc. apply H. simpl. rewrite Hc. apply orb_true_r.
Qed.

Lemma drop_while_app (p : ascii → bool) c (a b : string) :
  contains c a = true → p c = false →
  drop_while p (a ++ b) = drop_while p a ++ b.
Proof.
  intros Hc Hp. induction a as [|x a IH]; [done |].
  rewrite app_cons. simpl. destruct (p x) eqn:Px; [| done].
  apply IH. simpl in Hc.
  destruct (Ascii.eqb x c) eqn:E; [| done].
  apply Ascii.eqb_eq in E as ->. congruence.
Qed.

Lemma rev_nonempty (s : string) : s ≠ "" → String.rev s ≠ "".
Proof.
  destruct s as [|c s]; [done |]. intros _.
  rewrite rev_cons. by destruct (String.rev s).
Qed.

(** Splitting a text that ends in a run [t] without spaces. *)
Lemma split_go_run (t cur : string) :
  (∀ c, contains c t = true → isspace c = false) →
  split_go cur t =
    match String.rev cur ++ t with
    | EmptyString => []
    | s => [s]
    end.
Proof.
  revert cur. induction t as [|x t IH]; intros cur H.
  - simpl. rewrite app_empty_r.
    destruct cur as [|c cur]; [done |].
    pose proof (rev_nonempty (String c cur)) as Hne.
    destruct (String.rev (String c cur)); [by destruct Hne | done].
  - simpl. rewrite (H x) by (simpl; by rewrite Ascii.eqb_refl).
    rewrite IH by (intros c Hc; apply H; simpl; rewrite Hc; apply orb_true_r).
    by rewrite rev_cons, app_assoc.
Qed.

Lemma join_split_suffix (t : string) :
  t ≠ "" →
  (∀ c, contains c t = true → isspace c = false) →
  ∀ b cur, ∃ x,
    join "_" (split_go cur (b ++ t)) = x ++ t
    ∧ ∀ a, isspace a = false → contains a cur || contains a b = true →
           contains a x = true.
Proof.
  intros Hne Ht. induction b as [|y b IH]; intros cur.
  - rewrite app_nil, split_go_run by done.
    exists (String.rev cur). split.
    + destruct (String.rev cur ++ t) eqn:E; [| done].
      destruct (String.rev cur); [by rewrite app_nil in E | done].
    + intros a _ Ha. rewrite orb_false_r in Ha. by rewrite contains_rev.
  - rewrite app_cons. simpl. destruct (isspace y) eqn:Hy.
    + assert (∀ a, isspace a = false → Ascii.eqb y a = false) as Hya.
      { intros a Ha. destruct (Ascii.eqb y a) eqn:E; [| done].
        apply Ascii.eqb_eq in E as ->. congruence. }
      destruct (IH "") as (x & Hx & Hin).
      destruct cur as [|c cur].
      * exists x. split; [done |]. intros a Ha Hc.
        apply Hin; [done |]. by rewrite (Hya a Ha) in Hc.
      * exists (String.rev (String c cur) ++ "_" ++ x). split.
        -- unfold join in *. cbn [String.concat].
           destruct (split_go "" (b ++ t)) as [|w ws] eqn:Hsp.
           ++ simpl in Hx. destruct x; [by rewrite app_nil in Hx | done].
           ++ rewrite Hx. by rewrite !app_assoc.
        -- intros a Ha Hc. rewrite !contains_app, contains_rev.
           rewrite (Hya a Ha) in Hc. cbn [orb] in Hc.
           destruct (contains a (String c cur)); [done |].
           rewrite (Hin a Ha Hc). by rewrite !orb_true_r.
    + destruct (IH (String y cur)) as (x & Hx & Hin).
      exists x. split; [done |]. intros a Ha Hc. apply Hin; [done |].
      simpl. destruct (Ascii.eqb y a), (contains a cur), (contains a b); done.
Qed.

Lemma last_char (s : string) : s ≠ "" → ∃ s' z, s = s' ++ String z "".
Proof.
  induction s as [|c s IH]; [done |]. intros _.
  destruct s as [|d s].
  - by exists "", c.
  - destruct IH as (s' & z & Hs); [done |].
    exists (String c s'), z. by rewrite app_cons, <- Hs.
Qed.

Lemma contains_lower c (s : string) :
  contains c s = true → contains (lower_char c) (lower s) = true.
Proof.
  unfold lower. induction s as [|x s IH]; simpl; [done |].
  destruct (Ascii.eqb x c) eqn:E.
  - apply Ascii.eqb_eq in E as ->. by rewrite Ascii.eqb_refl.
  - simpl. intros H. rewrite (IH H). apply orb_true_r.
Qed.

Lemma allowed_extension_letters (ext : string) :
  Str.lower ext ∈ ALLOWED_EXTENSIONS →
  ext ≠ "" ∧ ∀ c, contains c ext = true → letter c = true.
Proof.
  intros H. split.
  - intros ->. unfold ALLOWED_EXTENSIONS in H.
    apply elem_of_union in H as [H | H];
      [apply elem_of_union in H as [H | H] |];
      apply elem_of_singleton in H; discriminate H.
  - intros c Hc. apply SecureFacts.lower_letter.
    apply contains_lower in Hc. revert Hc.
    unfold ALLOWED_EXTENSIONS in H.
    apply elem_of_union in H as [H | H];
      [apply elem_of_union in H as [H | H] |];
      apply elem_of_singleton in H; rewrite H;
      generalize (lower_char c); intros x; each_char x; vm_compute; done.
Qed.

Lemma strip_keeps_tail (chars : string) a z (y t : string) :
  contains a y = true → contains a chars = false →
  contains z chars = false →
  strip chars (y ++ t ++ String z "")
  = drop_while (λ c, contains c chars) y ++ t ++ String z "".
Proof.
  intros Ha Hachars Hz. unfold strip.
  rewrite (drop_while_app _ a) by done.
  rewrite <- !app_assoc, rev_app. cbn [String.rev String.rev_app].
  rewrite app_cons. cbn [drop_while]. rewrite Hz.
  rewrite <- app_cons. change (String z "") with (String.rev (String z "")).
  by rewrite <- rev_app, rev_involutive.
Qed.

Lemma allowed_file_stem_ext (stem ext : string) :
  contains "." ext = false →
  allowed_file (stem ++ "." ++ ext)
  = Some (bool_decide (lower ext ∈ ALLOWED_EXTENSIONS)).
Proof.
  intros H. unfold allowed_file.
  change ("." ++ ext) with (String "." ext).
  rewrite contains_app. simpl. rewrite orb_true_r.
  rewrite rsplit1_second by (rewrite contains_app; simpl; apply orb_true_r).
  by rewrite after_last_app.
Qed.

Lemma secure_filename_stem_ext (stem ext : string) (a : ascii) :
  lower ext ∈ ALLOWED_EXTENSIONS →
  alnum a = true → contains a stem = true →
  ∃ stem', secure_filename (stem ++ "." ++ ext) = stem' ++ "." ++ ext
           ∧ contains a stem' = true.
Proof.
  intros Hext Ha Hin.
  destruct (allowed_extension_letters ext Hext) as [Hne Hletters].
  destruct (alnum_survives a Ha) as (Han & Har & Has & Haf & Had).
  set (t := "." ++ ext).
  assert (∀ c, contains c t = true →
               nfkd_ascii c = String c ""
               ∧ (if Ascii.eqb c "/" then " "%char else c) = c
               ∧ isspace c = false ∧ filename_char c = true) as Ht.
  { intros c Hc. subst t. change ("." ++ ext) with (String "." ext) in Hc.
    cbn [contains] in Hc. destruct (Ascii.eqb "." c) eqn:E.
    - apply Ascii.eqb_eq in E as <-. apply dot_survives.
    - cbn [orb] in Hc.
      destruct (alnum_survives c (letter_alnum c (Hletters c Hc)))
        as (? & ? & ? & ? & _). done. }
  assert (t ≠ "") as Htne by done.
  unfold secure_filename.
  rewrite flat_map_app, (flat_map_fixed _ t) by (intros c Hc; apply (Ht c Hc)).
  unfold replace.
  rewrite map_app, (map_fixed _ t) by (intros c Hc; apply (Ht c Hc)).
  destruct (join_split_suffix t Htne (λ c Hc, proj1 (proj2 (proj2 (Ht c Hc))))
              (map (λ c, if Ascii.eqb c "/" then " "%char else c)
                 (flat_map nfkd_ascii stem)) "")
    as (x & Hx & Hxin).
  unfold split. rewrite Hx.
  rewrite filter_app, (filter_fixed _ t)
    by (intros c Hc; apply (Ht c Hc)).
  assert (contains a (filter filename_char x) = true) as Hy.
  { apply contains_filter; [done |]. apply Hxin; [done |].
    cbn [contains orb].
    apply contains_map_fixed; [done |]. by apply contains_flat_map. }
  destruct (last_char ext Hne) as (ext' & z & Hz).
  assert (contains z "._" = false) as Hzd.
  { assert (letter z = true) as Hlz.
    { apply Hletters. rewrite Hz, contains_app. simpl.
      rewrite Ascii.eqb_refl. apply orb_true_r. }
    by destruct (alnum_survives z (letter_alnum z Hlz)) as (_ & _ & _ & _ & ?). }
  subst t. rewrite Hz.
  change ("." ++ ext' ++ String z "") with (("." ++ ext') ++ String z "").
  rewrite (strip_keeps_tail "._" a z _ ("." ++ ext') Hy Had Hzd).
  eexists. split; [reflexivity |].
  by apply (contains_drop_while (λ c, contains c "._")).
Qed.

End KeepExtension.

(** X15. The stored name keeps the extension: when an allowed filename has
    an ASCII letter or digit somewhere before its last dot, its sanitized
    form ends in the same dot and extension and passes [allowed_file]
    again.  Without such a character the extension can be lost: [.png] is
    allowed and is stored as [png], which [allowed_file] refuses. *)
Theorem sanitized_name_keeps_extension (stem ext : string) (a : ascii) :
  (Str.contains "." ext = false →
   allowed_file (stem ++ "." ++ ext) = Some true →
   alnum a = true → Str.contains a stem = true →
   (∃ stem', Werkzeug.secure_filename (stem ++ "." ++ ext) = stem' ++ "." ++ ext)
   ∧ allowed_file (Werkzeug.secure_filename (stem ++ "." ++ ext)) = Some true)
  ∧ (allowed_file ".png" = Some true
     ∧ Werkzeug.secure_filename ".png" = "png"
     ∧ allowed_file (Werkzeug.secure_filename ".png") = Some false).
Proof.
  split; [| by vm_compute].
  intros Hdot Hallowed Ha Hin.
  rewrite KeepExtension.allowed_file_stem_ext in Hallowed by done.
  injection Hallowed as Hext. apply bool_decide_eq_true in Hext.
  destruct (KeepExtension.secure_filename_stem_ext stem ext a Hext Ha Hin)
    as (stem' & Hs & _).
  split; [by exists stem' |].
  rewrite Hs, KeepExtension.allowed_file_stem_ext by done.
  by rewrite bool_decide_eq_true_2.
Qed.

Lemma sanitized_name_keeps_extension_witness :
  (∃ stem', Werkzeug.secure_filename ("../my holiday (1)" ++ "." ++ "JPG")
            = stem' ++ "." ++ "JPG")
  ∧ allowed_file (Werkzeug.secure_filename ("../my holiday (1)" ++ "." ++ "JPG"))
    = Some true.
Proof.
  apply (sanitized_name_keeps_extension "../my holiday (1)" "JPG" "1");
    reflexivity.
Defined.

(** ** What the answers depend on *)

(** X16. The answer of [submit_photo] is decided by the request and by
    what the storage layer does, never by what is stored: the same
    request gets the same answer in any two worlds, whoever is registered,
    however many submissions the tables hold, and whether or not a file
    of that name is already on disk.  The answer of [register] depends on
    the User table only. *)
Theorem answers_independent_of_state (env : Env) (request : Request)
    (w w' : World) :
  response (submit_photo env request w) = response (submit_photo env request w')
  ∧ (users w = users w' →
     response (register env request w) = response (register env request w')).
Proof.
  split.
  - destruct (fields_present request PHOTO_FIELDS) eqn:Hall;
      [| by rewrite !submit_photo_missing].
    destruct (Re.match_ VIT_ID_PATTERN (field request "vitId")) eqn:Hvit.
    + rewrite !submit_photo_file_checks by done.
      destruct (get (files request) "photoFile") as [f |]; [| done].
      destruct (String.eqb (filename f) ""); [done |].
      destruct (extension_allowed (filename f)); [| done].
      unfold save. destruct (save_outcome env) as [| e [part |]]; [| done | done].
      cbn zeta. rewrite !commit_photo. by destruct (commit_error env).
    + destruct (invalid_id_answer env request w) as [_ Hw].
      destruct (invalid_id_answer env request w') as [_ Hw'].
      by rewrite (proj2 (Hw Hall) Hvit), (proj2 (Hw' Hall) Hvit).
  - intros Husers.
    destruct (register_outcomes env request w)
      as [(_ & _ & _) | [(_ & _ & _) | (Hall & Hpw & Hvit & Hv & He)]].
    + unfold register. rewrite Husers.
      repeat match goal with
             | |- context [if ?b then _ else _] => destruct b; try reflexivity
             end.
      unfold session_commit, session_add. cbn [pending new_session app flush insert].
      cbn [User.vit_id User.email]. rewrite Husers.
      repeat case_bool_decide; try reflexivity.
      by destruct (commit_error env).
    + unfold register. rewrite Husers.
      repeat match goal with
             | |- context [if ?b then _ else _] => destruct b; try reflexivity
             end.
      unfold session_commit, session_add. cbn [pending new_session app flush insert].
      cbn [User.vit_id User.email]. rewrite Husers.
      repeat case_bool_decide; try reflexivity.
      by destruct (commit_error env).
    + rewrite (register_beyond_duplicates env request w) by done.
      rewrite (register_beyond_duplicates env request w')
        by (done || by rewrite <- Husers).
      by destruct (commit_error env).
Qed.

Lemma answers_independent_of_state_witness :
  let crowded :=
    {| users := [alice];
       photos := [PhotoSubmission.mk (Some 7) "Alice" "21ABC1234" "Sunrise"
                    "Nature" None "sunrise.png" (Some 1690000000)];
       disk := {["uploads/sunrise.png" := [x00]]} |} in
  response (submit_photo env_ok
              (photo_request "21ABC1234" (photo "sunrise.png" png_bytes))
              empty_world)
  = response (submit_photo env_ok
                (photo_request "21ABC1234" (photo "sunrise.png" png_bytes))
                crowded)
  ∧ response (register env_ok
                (register_request "Alice" "21ABC1234" "alice@vit.ac.in" "s" "s")
                world_with_alice)
    = response (register env_ok
                  (register_request "Alice" "21ABC1234" "alice@vit.ac.in" "s" "s")
                  crowded).
Proof.
  intros crowded. split.
  - apply (answers_independent_of_state env_ok
             (photo_request "21ABC1234" (photo "sunrise.png" png_bytes))
             empty_world crowded).
  - apply (answers_independent_of_state env_ok
             (register_request "Alice" "21ABC1234" "alice@vit.ac.in" "s" "s")
             world_with_alice crowded).
    reflexivity.
Defined.

(** ** The [__repr__] methods *)

Lemma app_cancel_r (a b t : string) : a ++ t = b ++ t → a = b.
Proof.
  intros H. apply (f_equal String.rev) in H.
  rewrite !StrFacts.rev_app in H. apply (inj _) in H.
  by rewrite <- (StrFacts.rev_involutive a), H, StrFacts.rev_involutive.
Qed.

Lemma NoDup_fmap_eq {A B} (f : A → B) (l : list A) (x y : A) :
  NoDup (f <$> l) → x ∈ l → y ∈ l → f x = f y → x = y.
Proof.
  induction l as [|z l IH]; intros Hnd Hx Hy Hf; [by apply elem_of_nil in Hx |].
  rewrite fmap_cons in Hnd. apply NoDup_cons in Hnd as [Hz Hnd].
  apply elem_of_cons in Hx as [-> | Hx]; apply elem_of_cons in Hy as [-> | Hy].
  - done.
  - destruct Hz. rewrite Hf. by apply list_elem_of_fmap_2.
  - destruct Hz. rewrite <- Hf. by apply list_elem_of_fmap_2.
  - by apply IH.
Qed.

(** X17. [User.__repr__] shows the vitId, so it tells stored Users apart:
    while vitIds are unique, two rows of the User table with the same
    repr are the same row.  [PhotoSubmission.__repr__] joins title and
    full name with " by " and does not tell submissions apart: moving a
    " by " from the title to the name gives the same repr. *)
Theorem repr_identifies (w : World) (u1 u2 : User.t) (a b c : string)
    (p1 p2 : PhotoSubmission.t) :
  (unique_users w → u1 ∈ users w → u2 ∈ users w →
   User_repr u1 = User_repr u2 → u1 = u2)
  ∧ (PhotoSubmission.photo_title p1 = a ++ " by " ++ b →
     PhotoSubmission.full_name p1 = c →
     PhotoSubmission.photo_title p2 = a →
     PhotoSubmission.full_name p2 = b ++ " by " ++ c →
     PhotoSubmission_repr p1 = PhotoSubmission_repr p2).
Proof.
  split.
  - intros [Hv _] H1 H2 Hrepr. unfold User_repr in Hrepr.
    apply (inj _) in Hrepr. apply app_cancel_r in Hrepr.
    by apply (NoDup_fmap_eq User.vit_id (users w)).
  - intros H1 H2 H3 H4. unfold PhotoSubmission_repr.
    rewrite H1, H2, H3, H4. by rewrite !StrFacts.app_assoc.
Qed.

Lemma repr_identifies_witness :
  let bob := User.mk (Some 2) "Bob" "22XYZ0007" "bob@vit.ac.in" "pw" in
  let p1 := PhotoSubmission.mk (Some 1) "Ansel" "21ABC1234" "Dawn by the sea"
              "Nature" None "a.png" None in
  let p2 := PhotoSubmission.mk (Some 2) "the sea by Ansel" "22XYZ0007" "Dawn"
              "Nature" None "b.png" None in
  (User_repr alice = User_repr alice → alice = alice)
  ∧ User_repr alice ≠ User_repr bob
  ∧ PhotoSubmission_repr p1 = PhotoSubmission_repr p2.
Proof.
  intros bob p1 p2.
  destruct (repr_identifies {| users := [alice; bob]; photos := []; disk := ∅ |}
              alice alice "Dawn" "the sea" "Ansel" p1 p2) as [Hu Hp].
  split; [| split].
  - apply Hu.
    + split; apply (bool_decide_unpack _); vm_compute; exact I.
    + apply list_elem_of_here.
    + apply list_elem_of_here.
  - discriminate.
  - apply Hp; reflexivity.
Defined.
